(** * SMT surrogate-model base class and result cache

    A shallow embedding of [smt/sm.py] (class [SM]) and
    [smt/utils/caching.py], with the properties of the natural-language
    specification stated over it.

    Python objects are modelled as follows.
    - numpy arrays: a shape and a row-major buffer ([ndarray]);
    - dicts: stdpp finite maps ([gmap]);
    - attributes of [self]: fields of the record [SM]; methods are
      state-passing functions that return either a value or the
      exception they raise, together with the object as it was left;
    - the [Printer] class, the subclass hooks [fit] / [evaluate] and the
      numpy / pickle / hashlib primitives are taken as parameters. *)

From stdpp Require Import gmap strings list fin_maps pretty.
From Stdlib Require Import ZArith.
From Stdlib.Strings Require Import Byte.

Open Scope string_scope.
Open Scope list_scope.
Open Scope Z_scope.

#[global] Instance byte_eq_decision : EqDecision byte := Byte.byte_eq_dec.

(** ** Exceptions and results *)

(** Keys of Python dicts that occur in the code: strings and integers. *)
Inductive pykey :=
| KStr (s : string)
| KInt (z : Z).

(** The exception classes the code can raise, with their argument. *)
Inductive exn :=
| KeyError (k : pykey)
| ValueError (msg : string)
| IndexError (msg : string)
| TypeError (msg : string)
| AttributeError (attr : string)
| UnboundLocalError (var : string)
| ZeroDivisionError
| IOError (filename : string)
| PickleError (msg : string)
| HookError (msg : string).

Inductive result (A : Type) :=
| Ok (a : A)
| Raise (e : exn).
Arguments Ok {A} a.
Arguments Raise {A} e.

Definition is_ok {A} (r : result A) : bool :=
  match r with Ok _ => true | Raise _ => false end.

Definition rbind {A B} (r : result A) (k : A → result B) : result B :=
  match r with
  | Ok a => k a
  | Raise e => Raise e
  end.

(** [try: body except: handler] with a bare [except] clause. *)
Definition try_except {A} (body : result A) (handler : result A) : result A :=
  match body with
  | Ok a => Ok a
  | Raise _ => handler
  end.

(** ** Dynamically typed Python values (what [pickle.load] can give back) *)

#[local] Set Warnings "-register-all".

Inductive pyval :=
| PyNone
| PyBool (b : bool)
| PyInt (z : Z)
| PyStr (s : string)
| PyList (l : list pyval)
| PyDict (d : gmap string pyval).

(** [obj[key]] for a string key. *)
Definition py_getitem (obj : pyval) (key : string) : result pyval :=
  match obj with
  | PyDict d =>
      match d !! key with
      | Some v => Ok v
      | None => Raise (KeyError (KStr key))
      end
  | PyList _ => Raise (TypeError "list indices must be integers, not str")
  | PyStr _ => Raise (TypeError "string indices must be integers, not str")
  | PyNone => Raise (TypeError "'NoneType' object has no attribute '__getitem__'")
  | PyBool _ => Raise (TypeError "'bool' object has no attribute '__getitem__'")
  | PyInt _ => Raise (TypeError "'int' object has no attribute '__getitem__'")
  end.

(** [s == v] for a [str] on the left. *)
Definition py_str_eq (s : string) (v : pyval) : bool :=
  match v with
  | PyStr t => bool_decide (s = t)
  | _ => false
  end.

(** ** numpy arrays *)

Record ndarray (A : Type) := mk_ndarray {
  shape : list nat;
  data : list A
}.
Arguments mk_ndarray {A} shape data.
Arguments shape {A} _.
Arguments data {A} _.

Definition prod_shape (s : list nat) : nat := foldr Nat.mul 1%nat s.

(** [a.size] *)
Definition asize {A} (a : ndarray A) : nat := prod_shape (shape a).

(** The buffer holds exactly [a.size] elements. *)
Definition wf_array {A} (a : ndarray A) : Prop := length (data a) = asize a.

(** [a.shape[i]] *)
Definition shape_at {A} (a : ndarray A) (i : nat) : result nat :=
  match shape a !! i with
  | Some n => Ok n
  | None => Raise (IndexError "tuple index out of range")
  end.

(** [a.reshape(newshape)] *)
Definition reshape {A} (a : ndarray A) (newshape : list nat) : result (ndarray A) :=
  if decide (asize a = prod_shape newshape)
  then Ok (mk_ndarray newshape (data a))
  else Raise (ValueError "total size of new array must be unchanged").

(** [np.atleast_2d(a)] *)
Definition atleast_2d {A} (a : ndarray A) : ndarray A :=
  match shape a with
  | [] => mk_ndarray [1%nat; 1%nat] (data a)
  | [n] => mk_ndarray [1%nat; n] (data a)
  | _ => a
  end.

(** [np.vstack([a, b])]: both operands are made at least 2-D and joined
    along axis 0; all other dimensions have to agree. *)
Definition vstack {A} (a b : ndarray A) : result (ndarray A) :=
  let a2 := atleast_2d a in
  let b2 := atleast_2d b in
  match shape a2, shape b2 with
  | na :: ta, nb :: tb =>
      if decide (ta = tb)
      then Ok (mk_ndarray ((na + nb)%nat :: ta) (data a2 ++ data b2))
      else Raise (ValueError "all the input array dimensions except for the concatenation axis must match exactly")
  | _, _ => Raise (ValueError "zero-dimensional arrays cannot be concatenated")
  end.

(** [np.array(a)]: a copy. *)
Definition np_array {A} (a : ndarray A) : ndarray A := a.

(** The rows of a 2-D array, top to bottom. *)
Definition rows_of {A} (a : ndarray A) : list (list A) :=
  match shape a with
  | [n; d] => (λ i, take d (drop (i * d) (data a))) <$> seq 0 n
  | _ => []
  end.

(** [a.shape[0]] as a plain number (0 for a 0-d array). *)
Definition nrows {A} (a : ndarray A) : nat := default 0%nat (head (shape a)).

(** ** The collaborators of [SM]

    [Printer] (module [smt.utils.printer]), the arithmetic of numpy
    floats and the primitives of [numpy.linalg] are outside the two
    source files; they are parameters of the development. *)

(** What [SM] asks the printer to show. *)
Inductive report (S : Type) :=
| RLineBreak                 (* printer._line_break() *)
| RCenter (name : pyval)     (* printer._center(sm_options['name']) *)
| RTitle (title : string)    (* printer._title(title) *)
| RBlank                     (* printer() *)
| RTrainingPts (n : nat)     (* printer('   %-25s : %i' % ('# training pts.', n)) *)
| REvalPts (n : nat)         (* printer('   %-12s : %i' % ('# eval pts.', n)) *)
| RPredTime (t : S).         (* printer('Prediction time/pt. (sec) : %10.7f' % t) *)
Arguments RLineBreak {S}.
Arguments RCenter {S} name.
Arguments RTitle {S} title.
Arguments RBlank {S}.
Arguments RTrainingPts {S} n.
Arguments REvalPts {S} n.
Arguments RPredTime {S} t.

Class Base := {
  (** numpy / Python floats *)
  scalar : Type;
  f_zero : scalar;                         (* 0. *)
  f_add : scalar → scalar → scalar;        (* a + b *)
  f_div : scalar → scalar → scalar;        (* a / b on numpy floats: never raises *)
  f_sq : scalar → scalar;                  (* a ** 2 *)
  f_sqrt : scalar → scalar;                (* a ** 0.5 *)
  f_div_int : scalar → nat → result scalar;(* a / n for a Python float and an int *)
  norm : ndarray scalar → scalar;          (* np.linalg.norm(a) *)
  arr_sub : ndarray scalar → ndarray scalar → result (ndarray scalar);
                                           (* a - b, with broadcasting *)
  (** the printer *)
  Printer : Type;
  new_printer : Printer;                                   (* Printer() *)
  set_active : bool → Printer → Printer;                   (* printer.active = b *)
  emit : report scalar → Printer → Printer;
  timed_enter : string → option string → Printer → Printer;
  timed_exit : string → option string → bool → Printer → Printer;
                                           (* the flag tells whether the block raised *)
  printer_time : string → Printer → result scalar;         (* printer._time(key) *)
  (** attributes owned by the inheriting class *)
  algo_state : Type
}.

(** One slot of the store: the list [[xt, yt]]. *)
Abbreviation entry := (ndarray scalar * ndarray scalar)%type.

Section Model.
Context `{B : Base}.

(** The attributes of an [SM] instance. [dim] and [nt] do not exist
    until they are first assigned; [printer] can hold [None]. *)
Record SM := mkSM {
  sm_options : gmap string pyval;
  printf_options : gmap string bool;
  training_pts : gmap string (gmap Z entry);
  printer : option Printer;
  dim : option nat;
  nt : option nat;
  internal : algo_state
}.

Definition set_training_pts (t : gmap string (gmap Z entry)) (s : SM) : SM :=
  mkSM (sm_options s) (printf_options s) t (printer s) (dim s) (nt s) (internal s).
Definition set_printer (p : option Printer) (s : SM) : SM :=
  mkSM (sm_options s) (printf_options s) (training_pts s) p (dim s) (nt s) (internal s).
Definition set_dim (d : nat) (s : SM) : SM :=
  mkSM (sm_options s) (printf_options s) (training_pts s) (printer s) (Some d) (nt s) (internal s).
Definition set_nt (n : nat) (s : SM) : SM :=
  mkSM (sm_options s) (printf_options s) (training_pts s) (printer s) (dim s) (Some n) (internal s).

(** Methods: the object goes in, the outcome and the object come out. *)
Definition M (A : Type) : Type := SM → result A * SM.

Definition ret {A} (a : A) : M A := λ s, (Ok a, s).
Definition raise {A} (e : exn) : M A := λ s, (Raise e, s).
Definition bind {A C} (m : M A) (k : A → M C) : M C :=
  λ s, match m s with
       | (Ok a, s') => k a s'
       | (Raise e, s') => (Raise e, s')
       end.
Definition lift {A} (r : result A) : M A := λ s, (r, s).
Definition get : M SM := λ s, (Ok s, s).
Definition modify (f : SM → SM) : M unit := λ s, (Ok tt, f s).

End Model.

Notation "x <- c1 ;; c2" := (bind c1 (λ x, c2))
  (at level 100, c1 at next level, right associativity).
Notation "c1 ;;; c2" := (bind c1 (λ _, c2))
  (at level 100, right associativity).

(** The part of a model that the inheriting class provides. *)
Class Algo `{B : Base} := {
  default_sm_options : gmap string pyval;      (* set by _set_default_options *)
  default_printf_options : gmap string bool;
  initial_internal : algo_state;
  fit : M unit;                                (* self.fit() *)
  evaluate : ndarray scalar → Z → M (ndarray scalar)   (* self.evaluate(x, kx) *)
}.

(** ** [class SM] *)

Section Methods.
Context `{A : Algo}.

(** [SM.__init__]: [dict.update] lets the supplied keys overwrite the
    defaults and keeps the others. *)
Definition init (sm_opts : option (gmap string pyval))
    (printf_opts : option (gmap string bool)) : SM :=
  let so := match sm_opts with
            | Some o => o ∪ default_sm_options
            | None => default_sm_options
            end in
  let po := match printf_opts with
            | Some o => o ∪ default_printf_options
            | None => default_printf_options
            end in
  mkSM so po {[ "exact" := ∅ ]} (Some new_printer) None None initial_internal.

(** [self.training_pts[typ]] *)
Definition get_tier (typ : string) : M (gmap Z entry) :=
  s <- get ;;
  match training_pts s !! typ with
  | Some pts => ret pts
  | None => raise (KeyError (KStr typ))
  end.

(** [self.training_pts[typ][kx]] *)
Definition get_entry (typ : string) (kx : Z) : M entry :=
  pts <- get_tier typ ;;
  match pts !! kx with
  | Some e => ret e
  | None => raise (KeyError (KInt kx))
  end.

(** [pts[kx] = e], [pts[kx][0] = x] and [pts[kx][1] = y], where [pts] is
    the dict object [self.training_pts[typ]] itself. *)
Definition set_entry (typ : string) (kx : Z) (e : entry) : M unit :=
  modify (λ s, set_training_pts (alter (insert kx e) typ (training_pts s)) s).
Definition set_entry_x (typ : string) (kx : Z) (x : ndarray scalar) : M unit :=
  modify (λ s, set_training_pts
                 (alter (alter (λ e : entry, (x, e.2)) kx) typ (training_pts s)) s).
Definition set_entry_y (typ : string) (kx : Z) (y : ndarray scalar) : M unit :=
  modify (λ s, set_training_pts
                 (alter (alter (λ e : entry, (e.1, y)) kx) typ (training_pts s)) s).

(** [SM.add_training_pts] *)
Definition add_training_pts (typ : string) (xt yt : ndarray scalar)
    (kx : option Z) : M unit :=
  n <- lift (shape_at xt 0) ;;
  yt <- lift (reshape yt [n; 1%nat]) ;;
  kx <- match kx with
        | None =>
            d <- lift (shape_at xt 1) ;;
            modify (set_dim d) ;;;
            n <- lift (shape_at xt 0) ;;
            modify (set_nt n) ;;;
            ret 0
        | Some kx => ret (kx + 1)
        end ;;
  pts <- get_tier typ ;;
  match pts !! kx with
  | Some _ =>
      e <- get_entry typ kx ;;
      x <- lift (vstack e.1 xt) ;;
      set_entry_x typ kx x ;;;
      e <- get_entry typ kx ;;
      y <- lift (vstack e.2 yt) ;;
      set_entry_y typ kx y
  | None => set_entry typ kx (np_array xt, np_array yt)
  end.

(** [self.printf_options[key]] and [self.sm_options[key]] *)
Definition printf_option (key : string) : M bool :=
  s <- get ;;
  match printf_options s !! key with
  | Some b => ret b
  | None => raise (KeyError (KStr key))
  end.
Definition sm_option (key : string) : M pyval :=
  s <- get ;;
  match sm_options s !! key with
  | Some v => ret v
  | None => raise (KeyError (KStr key))
  end.

(** [printf_options[k1] and printf_options[k2]]: the second lookup is
    only made when the first value is true. *)
Definition printf_and (k1 k2 : string) : M bool :=
  b <- printf_option k1 ;;
  if b then printf_option k2 else ret b.

(** An access to [self.printer] followed by a call or an attribute
    assignment on it. *)
Definition with_printer (attr : string) (f : Printer → Printer) : M unit :=
  s <- get ;;
  match printer s with
  | Some p => modify (set_printer (Some (f p)))
  | None => raise (AttributeError attr)
  end.
Definition say (r : report scalar) : M unit := with_printer "__call__" (emit r).

(** [with self.printer._timed_context(label, key=key): body] *)
Definition timed_context {T} (label : string) (key : option string)
    (body : M T) : M T :=
  with_printer "_timed_context" (timed_enter label key) ;;;
  λ s, match body s with
       | (Ok v, s') => (with_printer "_timed_context" (timed_exit label key false) ;;; ret v) s'
       | (Raise e, s') => (with_printer "_timed_context" (timed_exit label key true) ;;; raise e) s'
       end.

(** [SM.train] *)
Definition train : M unit :=
  e <- get_entry "exact" 0 ;;
  n_exact <- lift (shape_at e.1 0) ;;
  g <- printf_option "global" ;;
  with_printer "active" (set_active g) ;;;
  with_printer "_line_break" (emit RLineBreak) ;;;
  name <- sm_option "name" ;;
  with_printer "_center" (emit (RCenter name)) ;;;
  b <- printf_and "global" "problem" ;;
  with_printer "active" (set_active b) ;;;
  with_printer "_title" (emit (RTitle "Problem size")) ;;;
  say (RTrainingPts n_exact) ;;;
  say RBlank ;;;
  b <- printf_and "global" "time_train" ;;
  with_printer "active" (set_active b) ;;;
  name <- sm_option "name" ;;
  (if py_str_eq "MixExp" name
   then with_printer "_title" (emit (RTitle "Training of the Mixture of experts"))
   else with_printer "_title" (emit (RTitle "Training"))) ;;;
  timed_context "Training" None fit.

(** [SM.predict] *)
Definition predict (x : ndarray scalar) (kx : option Z) : M (ndarray scalar) :=
  n_evals <- lift (shape_at x 0) ;;
  b <- printf_and "global" "time_eval" ;;
  with_printer "active" (set_active b) ;;;
  name <- sm_option "name" ;;
  (if py_str_eq "MixExp" name
   then with_printer "_title" (emit (RTitle "Evaluation of the Mixture of experts"))
   else with_printer "_title" (emit (RTitle "Evaluation"))) ;;;
  say (REvalPts n_evals) ;;;
  say RBlank ;;;
  let kx := match kx with
            | None => 0
            | Some kx => kx + 1
            end in
  y <- timed_context "Predicting" (Some "prediction") (evaluate x kx) ;;
  s <- get ;;
  t <- match printer s with
       | Some p => lift (printer_time "prediction" p)
       | None => raise (AttributeError "_time")
       end ;;
  time_pt <- lift (f_div_int t n_evals) ;;
  say RBlank ;;;
  say (RPredTime time_pt) ;;;
  say RBlank ;;;
  lift (reshape y [n_evals; 1%nat]).

(** Reading a local variable of the running function: an
    [UnboundLocalError] when nothing was assigned to it yet. *)
Definition read_local {T} (name : string) (v : option T) : M T :=
  match v with
  | Some x => ret x
  | None => raise (UnboundLocalError name)
  end.

(** [SM.compute_rms_error]. The value is a float, or [None] when the
    function body ends without reaching a [return]. *)
Definition compute_rms_error (xe ye : option (ndarray scalar))
    (kx : option Z) : M (option scalar) :=
  match xe, ye with
  | Some xe, Some ye =>
      ye2 <- predict xe kx ;;
      d <- lift (arr_sub ye2 ye) ;;
      ret (Some (f_div (norm d) (norm ye)))
  | None, None =>
      let num := f_zero in
      let den := f_zero in
      let kx2 : option Z := None in
      kx2 <- match kx with
             | None => ret 0
             | Some _ => v <- read_local "kx2" kx2 ;; ret (v + 1)
             end ;;
      pts <- get_tier "exact" ;;
      match pts !! kx2 with
      | None =>
          raise (ValueError
                   ("There is no training point data available for kx " +:+ pretty kx2))
      | Some _ =>
          e <- get_entry "exact" kx2 ;;
          let '(xt, yt) := e in
          yt2 <- predict xt kx ;;
          d <- lift (arr_sub yt2 yt) ;;
          let num := f_add num (f_sq (norm d)) in
          let den := f_add den (f_sq (norm yt)) in
          ret (Some (f_div (f_sqrt num) (f_sqrt den)))
      end
  | _, _ => ret None
  end.

End Methods.

(** ** [smt/utils/caching.py] *)

(** The library calls of the module. [pickle.dumps] is applied to
    objects of several types; [pickle.load] gives back a dynamically
    typed value. *)
Class Picklable (T : Type) := pickle_dumps : T → result (list byte).
Class Unpickler := pickle_loads : list byte → result pyval.
Class Digest := md5_hexdigest : list byte → string.

(** [pickle.dump(obj, file)] writes into the file as it goes (Python 2,
    [pickle] and [cPickle] alike): when it raises, the file holds what
    had been written by then. *)
Class PickleWriter := pickle_written : pyval → list byte.

(** The files the cache lives in: the content of each existing file,
    and the paths that cannot be opened. *)
Record filesystem := mk_fs {
  files : gmap string (list byte);
  locked : gset string
}.

(** [open(filename, 'r')] followed by reading the whole file. *)
Definition open_read (fs : filesystem) (filename : string) : result (list byte) :=
  if decide (filename ∈ locked fs) then Raise (IOError filename)
  else match files fs !! filename with
       | Some bs => Ok bs
       | None => Raise (IOError filename)
       end.

(** [open(filename, 'w')]: the file is created or truncated. *)
Definition open_write (fs : filesystem) (filename : string) : result filesystem :=
  if decide (filename ∈ locked fs) then Raise (IOError filename)
  else Ok (mk_fs (<[filename := []]> (files fs)) (locked fs)).

Definition write_file (fs : filesystem) (filename : string) (bs : list byte) : filesystem :=
  mk_fs (<[filename := bs]> (files fs)) (locked fs).

Section Caching.
Context `{U : Unpickler} `{D : Digest} `{PV : Picklable pyval} `{W : PickleWriter}.

(** The body of the [try] block of [_caching_load]. *)
Definition _caching_load_body (fs : filesystem) (filename checksum : string)
    : result (bool * option pyval) :=
  rbind (open_read fs filename) (λ bs,
  rbind (pickle_loads bs) (λ save_pkl,
  rbind (py_getitem save_pkl "checksum") (λ stored,
  if py_str_eq checksum stored
  then rbind (py_getitem save_pkl "data") (λ d, Ok (true, Some d))
  else Ok (false, None)))).

(** [_caching_load] *)
Definition _caching_load (fs : filesystem) (filename checksum : string)
    : result (bool * option pyval) :=
  try_except (_caching_load_body fs filename checksum) (Ok (false, None)).

(** The dict that [_caching_save] builds. *)
Definition save_dict (checksum : string) (data : pyval) : pyval :=
  PyDict (<["checksum" := PyStr checksum]> (<["data" := data]> ∅)).

(** [_caching_save]: the file is opened (and emptied) before the dict
    is pickled into it; a dump that raises leaves in the file what it
    had written. *)
Definition _caching_save (fs : filesystem) (filename checksum : string)
    (data : pyval) : result unit * filesystem :=
  match open_write fs filename with
  | Raise e => (Raise e, fs)
  | Ok fs1 =>
      match pickle_dumps (save_dict checksum data) with
      | Raise e =>
          (Raise e, write_file fs1 filename (pickle_written (save_dict checksum data)))
      | Ok bs => (Ok tt, write_file fs1 filename bs)
      end
  end.

(** [_caching_checksum] *)
Definition _caching_checksum {T} `{Picklable T} (obj : T) : result string :=
  rbind (pickle_dumps obj) (λ self_pkl,
  Ok (md5_hexdigest self_pkl)).

Context `{B : Base}.
Context `{PM : Picklable (gmap string pyval * gmap string (gmap Z entry))}.

(** [_caching_checksum_sm]: the printer is put back only when the
    checksum was computed. *)
Definition _caching_checksum_sm : M string :=
  sm <- get ;;
  let tmp := printer sm in
  modify (set_printer None) ;;;
  sm <- get ;;
  checksum <- lift (_caching_checksum (sm_options sm, training_pts sm)) ;;
  modify (set_printer tmp) ;;;
  ret checksum.

End Caching.

(** ** A small concrete instance

    Integers stand in for floats, the printer keeps a log, the
    algorithm predicts zero everywhere, and the pickler writes a record
    as its checksum, a newline and the text of its payload. Used to run
    the definitions on concrete inputs. *)

Module Toy.

Definition sum_sq (l : list Z) : Z := foldr (λ x acc, x * x + acc) 0 l.

Definition toy_sub (a b : ndarray Z) : result (ndarray Z) :=
  if decide (shape a = shape b)
  then Ok (mk_ndarray (shape a) (zip_with Z.sub (data a) (data b)))
  else Raise (ValueError "operands could not be broadcast together").

Definition toy_printer : Type := bool * list (report Z).

Definition toy_emit (r : report Z) (p : toy_printer) : toy_printer :=
  if p.1 then (p.1, p.2 ++ [r]) else p.

#[export] Instance toy_base : Base := {|
  scalar := Z;
  f_zero := 0;
  f_add := Z.add;
  f_div := Z.div;
  f_sq := λ x, x * x;
  f_sqrt := Z.sqrt;
  f_div_int := λ t n, if decide (n = 0%nat) then Raise ZeroDivisionError
                      else Ok (t / Z.of_nat n);
  norm := λ a, Z.sqrt (sum_sq (data a));
  arr_sub := toy_sub;
  Printer := toy_printer;
  new_printer := (true, []);
  set_active := λ b p, (b, p.2);
  emit := toy_emit;
  timed_enter := λ _ _ p, p;
  timed_exit := λ _ _ _ p, p;
  printer_time := λ _ _, Ok 0;
  algo_state := unit
|}.

#[export] Instance toy_algo : Algo := {|
  default_sm_options := {[ "name" := PyStr "LS" ]};
  default_printf_options :=
    {[ "global" := true; "problem" := true;
       "time_train" := true; "time_eval" := true ]};
  initial_internal := tt;
  fit := ret tt;
  evaluate := λ x _, ret (mk_ndarray [nrows x] (replicate (nrows x) 0))
|}.

Definition fresh : SM := init None None.

(** Two points in the plane with their values, one more point, and a
    derivative sample. *)
Definition X1 : ndarray Z := mk_ndarray [2%nat; 2%nat] [1; 2; 3; 4].
Definition Y1 : ndarray Z := mk_ndarray [2%nat] [10; 20].
Definition X2 : ndarray Z := mk_ndarray [1%nat; 2%nat] [5; 6].
Definition Y2 : ndarray Z := mk_ndarray [1%nat; 1%nat] [30].
Definition Y_short : ndarray Z := mk_ndarray [1%nat] [10].

(** Run a method and keep the object. *)
Definition after {T} (m : M T) (s : SM) : SM := (m s).2.

Definition with_values : SM := after (add_training_pts "exact" X1 Y1 None) fresh.
Definition with_derivs : SM := after (add_training_pts "exact" X1 Y1 (Some 0)) fresh.

(** The toy pickler handles records whose payload is a string. *)
Definition newline : byte := x0a.

Definition toy_dumps (v : pyval) : result (list byte) :=
  match v with
  | PyDict d =>
      match d !! "checksum", d !! "data" with
      | Some (PyStr c), Some (PyStr p) =>
          if decide (newline ∈ Strings.String.list_byte_of_string c ∨ size d ≠ 2%nat)
          then Raise (PickleError "unsupported record")
          else Ok (Strings.String.list_byte_of_string c ++ newline :: Strings.String.list_byte_of_string p)%list
      | _, _ => Raise (PickleError "unsupported record")
      end
  | _ => Raise (PickleError "unsupported object")
  end.

Fixpoint split_line (bs : list byte) : option (list byte * list byte) :=
  match bs with
  | [] => None
  | b :: bs' =>
      if decide (b = newline) then Some ([], bs')
      else match split_line bs' with
           | Some (l, r) => Some (b :: l, r)
           | None => None
           end
  end.

Definition toy_loads (bs : list byte) : result pyval :=
  match split_line bs with
  | Some (c, p) =>
      Ok (PyDict (<["checksum" := PyStr (Strings.String.string_of_list_byte c)]>
                  (<["data" := PyStr (Strings.String.string_of_list_byte p)]> ∅)))
  | None => Raise (PickleError "truncated record")
  end.

#[export] Instance toy_unpickler : Unpickler := toy_loads.
#[export] Instance toy_pickler : Picklable pyval := toy_dumps.
(** The toy pickler checks a record before it writes anything. *)
#[export] Instance toy_pickle_written : PickleWriter := λ _, [].
#[export] Instance toy_digest : Digest := λ bs, Strings.String.string_of_list_byte (take 4 bs).
(** Options and store are written as the option names followed by the
    name and the number of slots of each tier. *)
#[export] Instance toy_model_pickler
  : Picklable (gmap string pyval * gmap string (gmap Z entry)) :=
  λ obj, Ok (concat (Strings.String.list_byte_of_string <$> (map_to_list obj.1).*1) ++
             concat ((λ kv : string * gmap Z entry,
                        Strings.String.list_byte_of_string (kv.1 +:+ pretty (size kv.2)))
                     <$> map_to_list obj.2)).

Definition empty_fs : filesystem := mk_fs ∅ ∅.

End Toy.

(** ** Vocabulary of the specification *)

Section Vocabulary.
Context `{B : Base}.

(** The slot of the store for a derivative index: 0 for the values,
    [k + 1] for the derivatives with respect to input [k]. *)
Definition key_of (kx : option Z) : Z :=
  match kx with
  | None => 0
  | Some k => k + 1
  end.

(** What is stored for a fidelity tag and a slot, if anything. *)
Definition stored (s : SM) (typ : string) (key : Z) : option entry :=
  training_pts s !! typ ≫= λ pts, pts !! key.

(** A slot holds a 2-D array of inputs and one output per input row. *)
Definition entry_ok (e : entry) : Prop :=
  ∃ m d, shape e.1 = [m; d] ∧ shape e.2 = [m; 1%nat].

Definition store_inv (s : SM) : Prop :=
  ∀ typ key e, stored s typ key = Some e → entry_ok e.

(** The model-wide facts that an insertion records: the column and
    row counts of [xt] when the values are inserted, nothing otherwise. *)
Definition record_facts (kx : option Z) (xt : ndarray scalar) (s : SM) : SM :=
  match kx with
  | None => set_nt (nrows xt) (set_dim (default 0%nat (shape xt !! 1%nat)) s)
  | Some _ => s
  end.

(** [yt] laid out as a column with [n] rows. *)
Definition column (n : nat) (yt : ndarray scalar) : ndarray scalar :=
  mk_ndarray [n; 1%nat] (data yt).

(** A slot that is either empty or holds well-formed arrays with [d]
    input columns. *)
Definition slot_ready (d : nat) (o : option entry) : Prop :=
  match o with
  | None => True
  | Some e => ∃ m, shape e.1 = [m; d] ∧ shape e.2 = [m; 1%nat] ∧
                   wf_array e.1 ∧ wf_array e.2
  end.

(** The rows a slot holds: none when it is empty. *)
Definition slot_rows_x (o : option entry) : list (list scalar) :=
  match o with Some e => rows_of e.1 | None => [] end.
Definition slot_rows_y (o : option entry) : list (list scalar) :=
  match o with Some e => rows_of e.2 | None => [] end.

End Vocabulary.

(** The file at [filename] can be read and unpickles to a record with
    the given checksum and payload. *)
Definition readable_record `{U : Unpickler} (fs : filesystem)
    (filename checksum : string) (payload : pyval) : Prop :=
  ∃ bs d, open_read fs filename = Ok bs ∧
          pickle_loads bs = Ok (PyDict d) ∧
          d !! "checksum" = Some (PyStr checksum) ∧
          d !! "data" = Some payload.

(** ** More concrete data *)

Module ToyCache.
Import Toy.

(** A pickler of models that cannot pickle the option ['xlimits']. *)
Definition strict_model_pickler
  : Picklable (gmap string pyval * gmap string (gmap Z entry)) :=
  λ obj, match obj.1 !! "xlimits" with
         | Some _ => Raise (PickleError "cannot pickle xlimits")
         | None => Ok []
         end.

(** The model [with_values] with the option ['xlimits'] set. *)
Definition with_limits : SM :=
  mkSM (<["xlimits" := PyList []]> (sm_options with_values))
       (printf_options with_values) (training_pts with_values)
       (printer with_values) (dim with_values) (nt with_values)
       (internal with_values).

End ToyCache.

(** ** Vocabulary for the further properties *)

Section Outcomes.
Context `{A : Algo}.

(** The ways a call of [add_training_pts] can leave the store: as it
    was, with a new slot, with the inputs of a slot extended (the call
    stopped between the two assignments), or with both arrays of a slot
    extended. *)
Inductive store_step (typ : string) (key : Z) (xt yt : ndarray scalar)
    (tp : gmap string (gmap Z entry)) : gmap string (gmap Z entry) → Prop :=
| step_none : store_step typ key xt yt tp tp
| step_new pts n y :
    tp !! typ = Some pts → pts !! key = None →
    shape_at xt 0 = Ok n → reshape yt [n; 1%nat] = Ok y →
    store_step typ key xt yt tp (<[typ := <[key := (xt, y)]> pts]> tp)
| step_inputs pts e0 x :
    tp !! typ = Some pts → pts !! key = Some e0 →
    vstack e0.1 xt = Ok x →
    store_step typ key xt yt tp (<[typ := <[key := (x, e0.2)]> pts]> tp)
| step_both pts e0 n y x y' :
    tp !! typ = Some pts → pts !! key = Some e0 →
    shape_at xt 0 = Ok n → reshape yt [n; 1%nat] = Ok y →
    vstack e0.1 xt = Ok x → vstack e0.2 y = Ok y' →
    store_step typ key xt yt tp (<[typ := <[key := (x, y')]> pts]> tp).

(** The statements of [add_training_pts] that follow the choice of the
    slot: [pts = self.training_pts[typ]] and the [if kx in pts] block. *)
Definition store_rows (typ : string) (kx : Z) (xt yt : ndarray scalar) : M unit :=
  pts <- get_tier typ ;;
  match pts !! kx with
  | Some _ =>
      e <- get_entry typ kx ;;
      x <- lift (vstack e.1 xt) ;;
      set_entry_x typ kx x ;;;
      e <- get_entry typ kx ;;
      y <- lift (vstack e.2 yt) ;;
      set_entry_y typ kx y
  | None => set_entry typ kx (np_array xt, np_array yt)
  end.

(** Two states of a model with the same options, training data and
    recorded facts; printer and algorithm state may differ. *)
Definition same_data (s s' : SM) : Prop :=
  sm_options s' = sm_options s ∧ printf_options s' = printf_options s ∧
  training_pts s' = training_pts s ∧ dim s' = dim s ∧ nt s' = nt s.

(** A method that leaves options, training data and facts alone,
    whatever its outcome. *)
Definition keeps_data {T} (m : M T) : Prop := ∀ s, same_data s (m s).2.

(** A method that does not take the printer away. *)
Definition keeps_printer {T} (m : M T) : Prop :=
  ∀ s, is_Some (printer s) → is_Some (printer (m s).2).

(** What [train] needs besides the training data: a printer, a model
    name, and the reporting switches it reads (only ['global'] when
    that one is off). *)
Definition train_ready (s : SM) : Prop :=
  is_Some (printer s) ∧ is_Some (sm_options s !! "name") ∧
  (printf_options s !! "global" = Some false ∨
   (printf_options s !! "global" = Some true ∧
    is_Some (printf_options s !! "problem") ∧
    is_Some (printf_options s !! "time_train"))).

(** The relative error that the self-check returns for a residual [d]
    and reference outputs [yt]. *)
Definition self_check_error (d yt : ndarray scalar) : scalar :=
  f_div (f_sqrt (f_add f_zero (f_sq (norm d))))
        (f_sqrt (f_add f_zero (f_sq (norm yt)))).

End Outcomes.

(** * Properties *)

(** ** Arrays *)

Section ArrayFacts.
Context {T : Type}.
Implicit Types a b c : ndarray T.

Lemma shape_at_2d a n d i :
  shape a = [n; d] →
  shape_at a i = match i with
                 | O => Ok n
                 | S O => Ok d
                 | _ => Raise (IndexError "tuple index out of range")
                 end.
Proof.
  intros Hs. unfold shape_at. rewrite Hs.
  destruct i as [|[|i]]; reflexivity.
Qed.

Lemma shape_at_Ok a i n : shape_at a i = Ok n → shape a !! i = Some n.
Proof. unfold shape_at. destruct (shape a !! i); congruence. Qed.

Lemma reshape_column_ok a n :
  asize a = n →
  reshape a [n; 1%nat] = Ok (mk_ndarray [n; 1%nat] (data a)).
Proof.
  intros Hn. unfold reshape, prod_shape. simpl.
  destruct (decide _) as [_|Hne]; [reflexivity|]. exfalso. lia.
Qed.

Lemma reshape_column_fail a n :
  asize a ≠ n →
  reshape a [n; 1%nat] = Raise (ValueError "total size of new array must be unchanged").
Proof.
  intros Hn. unfold reshape, prod_shape. simpl.
  destruct (decide _) as [He|_]; [|reflexivity]. exfalso. lia.
Qed.

Lemma reshape_inv a s c :
  reshape a s = Ok c → asize a = prod_shape s ∧ c = mk_ndarray s (data a).
Proof.
  unfold reshape. destruct (decide _); intros H; inversion H; auto.
Qed.

Lemma vstack_2d a b n m d :
  shape a = [n; d] → shape b = [m; d] →
  vstack a b = Ok (mk_ndarray [(n + m)%nat; d] (data a ++ data b)).
Proof.
  intros Ha Hb. unfold vstack, atleast_2d. rewrite Ha, Hb. simpl.
  rewrite Ha, Hb. rewrite decide_True by reflexivity. reflexivity.
Qed.

Lemma vstack_2d_mismatch a b n m d d' :
  shape a = [n; d] → shape b = [m; d'] → d ≠ d' →
  is_ok (vstack a b) = false.
Proof.
  intros Ha Hb Hd. unfold vstack, atleast_2d. rewrite Ha, Hb. simpl.
  rewrite Ha, Hb. rewrite decide_False by congruence. reflexivity.
Qed.

Lemma rows_of_2d a n d :
  shape a = [n; d] →
  rows_of a = (λ i, take d (drop (i * d) (data a))) <$> seq 0 n.
Proof. intros Hs. unfold rows_of. rewrite Hs. reflexivity. Qed.

Lemma length_rows_of a n d : shape a = [n; d] → length (rows_of a) = n.
Proof.
  intros Hs. rewrite (rows_of_2d a n d Hs), length_fmap, length_seq. reflexivity.
Qed.

(** Stacking two well-formed 2-D arrays puts the rows of the first on
    top of the rows of the second. *)
Lemma rows_of_stacked a b n m d :
  shape a = [n; d] → shape b = [m; d] → wf_array a → wf_array b →
  rows_of (mk_ndarray [(n + m)%nat; d] (data a ++ data b))
  = rows_of a ++ rows_of b.
Proof.
  intros Ha Hb Wa Wb.
  unfold wf_array, asize, prod_shape in Wa, Wb. rewrite Ha in Wa. rewrite Hb in Wb.
  simpl in Wa, Wb.
  rewrite (rows_of_2d a n d Ha), (rows_of_2d b m d Hb).
  unfold rows_of. simpl.
  rewrite seq_app, fmap_app. simpl. f_equal.
  - apply list_fmap_ext. intros k i Hi.
    apply lookup_seq in Hi as [-> Hlt]. simpl.
    assert (k * d + d ≤ length (data a))%nat by nia.
    rewrite drop_app_le by lia.
    rewrite take_app_le by (rewrite length_drop; lia).
    reflexivity.
  - replace (seq n m) with (seq (n + 0) m) by (f_equal; lia).
    rewrite <- (fmap_add_seq n 0 m), <- list_fmap_compose.
    apply list_fmap_ext. intros k i Hi. simpl.
    replace ((n + i) * d)%nat with (length (data a) + i * d)%nat by nia.
    rewrite drop_app_add. reflexivity.
Qed.

End ArrayFacts.

(** ** The training data store *)

Section StoreFacts.
Context `{A : Algo}.
Implicit Types s : SM.

Lemma alter_lookup_Some {K V} `{Countable K} (f : V → V) (m : gmap K V) i x :
  m !! i = Some x → alter f i m = <[i := f x]> m.
Proof.
  intros Hm. apply map_eq. intros j.
  destruct (decide (i = j)) as [->|Hne].
  - rewrite lookup_alter_eq, lookup_insert_eq, Hm. reflexivity.
  - rewrite lookup_alter_ne, lookup_insert_ne by done. reflexivity.
Qed.

(** Equations of the method monad. *)
Lemma bind_ret {X Y} (a : X) (k : X → M Y) s : bind (ret a) k s = k a s.
Proof. reflexivity. Qed.

Lemma bind_raise {X Y} e (k : X → M Y) s : bind (raise e) k s = (Raise e, s).
Proof. reflexivity. Qed.

Lemma bind_lift_ok {X Y} (a : X) (k : X → M Y) s : bind (lift (Ok a)) k s = k a s.
Proof. reflexivity. Qed.

Lemma bind_lift_raise {X Y} e (k : X → M Y) s :
  bind (lift (Raise e)) k s = (Raise e, s).
Proof. reflexivity. Qed.

Lemma bind_modify {Y} f (k : unit → M Y) s : bind (modify f) k s = k tt (f s).
Proof. reflexivity. Qed.

Lemma bind_get {Y} (k : SM → M Y) s : bind get k s = k s s.
Proof. reflexivity. Qed.

Lemma bind_bind {X Y W} (m : M X) (k : X → M Y) (h : Y → M W) s :
  bind (bind m k) h s = bind m (λ x, bind (k x) h) s.
Proof. unfold bind. destruct (m s) as [[x|e] s']; reflexivity. Qed.

Lemma bind_get_tier {Y} typ (k : gmap Z entry → M Y) s :
  bind (get_tier typ) k s =
  match training_pts s !! typ with
  | Some pts => k pts s
  | None => (Raise (KeyError (KStr typ)), s)
  end.
Proof.
  unfold get_tier. rewrite bind_bind, bind_get.
  destruct (training_pts s !! typ); reflexivity.
Qed.

Lemma bind_get_entry {Y} typ key (k : entry → M Y) s e :
  stored s typ key = Some e → bind (get_entry typ key) k s = k e s.
Proof.
  unfold stored, get_entry. intros Hst. rewrite bind_bind, bind_get_tier.
  destruct (training_pts s !! typ) as [pts|]; [|discriminate]. simpl in Hst.
  rewrite Hst. reflexivity.
Qed.

(** [add_training_pts] on a 2-D [xt], statement by statement. *)
Lemma add_training_pts_unfold typ xt yt kx s n d :
  shape xt = [n; d] →
  add_training_pts typ xt yt kx s =
  match reshape yt [n; 1%nat] with
  | Raise e => (Raise e, s)
  | Ok y =>
      let s1 := record_facts kx xt s in
      match training_pts s !! typ with
      | None => (Raise (KeyError (KStr typ)), s1)
      | Some pts =>
          match pts !! key_of kx with
          | None =>
              (Ok tt, set_training_pts
                        (<[typ := <[key_of kx := (xt, y)]> pts]> (training_pts s)) s1)
          | Some e0 =>
              match vstack e0.1 xt with
              | Raise e => (Raise e, s1)
              | Ok x =>
                  let s2 := set_training_pts
                              (<[typ := <[key_of kx := (x, e0.2)]> pts]> (training_pts s)) s1 in
                  match vstack e0.2 y with
                  | Raise e => (Raise e, s2)
                  | Ok y' =>
                      (Ok tt, set_training_pts
                                (<[typ := <[key_of kx := (x, y')]> pts]> (training_pts s)) s1)
                  end
              end
          end
      end
  end.
Proof.
  intros Hs.
  assert (Hkey : ∀ Y (k : Z → M Y) s,
    bind match kx with
         | None =>
             d <- lift (shape_at xt 1) ;;
             modify (set_dim d) ;;;
             n <- lift (shape_at xt 0) ;;
             modify (set_nt n) ;;;
             ret 0
         | Some kx => ret (kx + 1)
         end k s = k (key_of kx) (record_facts kx xt s)).
  { intros Y k s0. destruct kx as [kx|]; [reflexivity|].
    rewrite (shape_at_2d xt n d 1 Hs), (shape_at_2d xt n d 0 Hs).
    unfold record_facts, nrows. rewrite Hs. reflexivity. }
  unfold add_training_pts.
  rewrite (shape_at_2d xt n d 0 Hs) at 1. rewrite bind_lift_ok.
  destruct (reshape yt [n; 1%nat]) as [y|e]; [rewrite bind_lift_ok|reflexivity].
  rewrite Hkey. clear Hkey.
  assert (Htp : training_pts (record_facts kx xt s) = training_pts s)
    by (destruct kx; reflexivity).
  set (s1 := record_facts kx xt s) in *. set (key := key_of kx).
  rewrite bind_get_tier, Htp.
  destruct (training_pts s !! typ) as [pts|] eqn:Htyp; [|reflexivity].
  destruct (pts !! key) as [e0|] eqn:Hk.
  - rewrite (bind_get_entry typ key _ s1 e0)
      by (unfold stored; rewrite Htp, Htyp; exact Hk).
    destruct (vstack e0.1 xt) as [x|e]; [rewrite bind_lift_ok|reflexivity].
    unfold set_entry_x. rewrite bind_modify, Htp.
    rewrite (alter_lookup_Some _ _ _ _ Htyp), (alter_lookup_Some _ _ _ _ Hk).
    rewrite (bind_get_entry typ key _ _ (x, e0.2))
      by (unfold stored; simpl; rewrite lookup_insert_eq; simpl;
          rewrite lookup_insert_eq; reflexivity).
    simpl.
    destruct (vstack e0.2 y) as [y'|e]; [rewrite bind_lift_ok|reflexivity].
    unfold set_entry_y, modify, set_training_pts. simpl.
    rewrite !alter_insert_eq. reflexivity.
  - unfold set_entry, modify. rewrite Htp.
    rewrite (alter_lookup_Some _ _ _ _ Htyp). reflexivity.
Qed.

Lemma stored_record_facts kx xt s typ key :
  stored (record_facts kx xt s) typ key = stored s typ key.
Proof. destruct kx; reflexivity. Qed.

Lemma stored_insert s s1 typ key e pts typ' key' :
  training_pts s !! typ = Some pts →
  stored (set_training_pts (<[typ := <[key := e]> pts]> (training_pts s)) s1) typ' key'
  = if decide (typ' = typ)
    then if decide (key' = key) then Some e else stored s typ' key'
    else stored s typ' key'.
Proof.
  intros Htyp. unfold stored. simpl.
  destruct (decide (typ' = typ)) as [->|Hne].
  - rewrite lookup_insert_eq, Htyp. simpl.
    destruct (decide (key' = key)) as [->|Hk].
    + apply lookup_insert_eq.
    + apply lookup_insert_ne. congruence.
  - rewrite lookup_insert_ne by congruence. reflexivity.
Qed.

Lemma store_inv_insert s s1 typ key e pts :
  training_pts s !! typ = Some pts → store_inv s → entry_ok e →
  store_inv (set_training_pts (<[typ := <[key := e]> pts]> (training_pts s)) s1).
Proof.
  intros Htyp Hinv He typ' key' e'. rewrite (stored_insert _ _ _ _ _ _ _ _ Htyp).
  repeat case_decide; [congruence | apply Hinv | apply Hinv].
Qed.

(** One insertion into a ready slot: it succeeds and puts the new rows
    under the ones already there. *)
Lemma add_training_pts_step typ xt yt kx s n d :
  is_Some (training_pts s !! typ) →
  slot_ready d (stored s typ (key_of kx)) →
  shape xt = [n; d] → wf_array xt → asize yt = n → wf_array yt →
  ∃ s' e,
    add_training_pts typ xt yt kx s = (Ok tt, s') ∧
    is_Some (training_pts s' !! typ) ∧
    stored s' typ (key_of kx) = Some e ∧
    slot_ready d (Some e) ∧
    rows_of e.1 = slot_rows_x (stored s typ (key_of kx)) ++ rows_of xt ∧
    rows_of e.2 = slot_rows_y (stored s typ (key_of kx)) ++ rows_of (column n yt) ∧
    data e.1 = from_option (λ e0, data e0.1) [] (stored s typ (key_of kx)) ++ data xt ∧
    data e.2 = from_option (λ e0, data e0.2) [] (stored s typ (key_of kx)) ++ data yt.
Proof.
  intros [pts Htyp] Hready Hs Wx Hn Wy.
  rewrite (add_training_pts_unfold typ xt yt kx s n d Hs).
  rewrite (reshape_column_ok yt n Hn). fold (column n yt). cbv zeta.
  rewrite Htyp. unfold stored in Hready |- *. rewrite Htyp in Hready |- *.
  simpl in Hready |- *.
  assert (Wc : wf_array (column n yt)).
  { unfold wf_array, column, asize, prod_shape in *. simpl. lia. }
  destruct (pts !! key_of kx) as [[X0 Y0]|] eqn:Hk.
  - destruct Hready as (m & HX0 & HY0 & WX0 & WY0). simpl in *.
    rewrite (vstack_2d X0 xt m n d HX0 Hs).
    rewrite (vstack_2d Y0 (column n yt) m n 1%nat HY0 eq_refl).
    eexists _, _. split; [reflexivity|]. simpl.
    rewrite !lookup_insert_eq. simpl. rewrite lookup_insert_eq.
    split; [eauto|]. split; [reflexivity|]. simpl.
    split.
    { exists (m + n)%nat. repeat split; unfold wf_array, asize, prod_shape in *;
        simpl in *; rewrite ?length_app, ?HX0, ?HY0, ?Hs in *; simpl in *; nia. }
    split; [apply rows_of_stacked; assumption|].
    split; [apply (rows_of_stacked Y0 (column n yt)); auto|].
    split; reflexivity.
  - eexists _, _. split; [reflexivity|]. simpl.
    rewrite !lookup_insert_eq. simpl. rewrite lookup_insert_eq.
    split; [eauto|]. split; [reflexivity|]. simpl.
    split; [exists n; auto|]. auto.
Qed.

(** C5. Two insertions [(X1, Y1)] then [(X2, Y2)] for the same
    fidelity tag and derivative index both succeed and leave, in that
    slot, the rows that were already there (none for an empty slot),
    then the rows of [X1], then the rows of [X2], with every row kept;
    the outputs are stacked the same way. For a slot that was empty the
    stored rows are the rows of [X1] followed by those of [X2], and
    there are [|X1| + |X2|] of them. *)
Theorem add_training_pts_twice_appends typ X1 Y1 X2 Y2 kx s n1 n2 d :
  is_Some (training_pts s !! typ) →
  slot_ready d (stored s typ (key_of kx)) →
  shape X1 = [n1; d] → wf_array X1 → asize Y1 = n1 → wf_array Y1 →
  shape X2 = [n2; d] → wf_array X2 → asize Y2 = n2 → wf_array Y2 →
  ∃ s1 s2 e,
    add_training_pts typ X1 Y1 kx s = (Ok tt, s1) ∧
    add_training_pts typ X2 Y2 kx s1 = (Ok tt, s2) ∧
    stored s2 typ (key_of kx) = Some e ∧
    rows_of e.1 = slot_rows_x (stored s typ (key_of kx)) ++ rows_of X1 ++ rows_of X2 ∧
    rows_of e.2 = slot_rows_y (stored s typ (key_of kx))
                  ++ rows_of (column n1 Y1) ++ rows_of (column n2 Y2) ∧
    length (rows_of e.1) = (length (slot_rows_x (stored s typ (key_of kx))) + n1 + n2)%nat ∧
    length (rows_of e.2) = length (rows_of e.1) ∧
    (stored s typ (key_of kx) = None →
       rows_of e.1 = rows_of X1 ++ rows_of X2 ∧
       data e.2 = data Y1 ++ data Y2 ∧
       shape e.1 = [(n1 + n2)%nat; d] ∧ shape e.2 = [(n1 + n2)%nat; 1%nat]).
Proof.
  intros Htyp Hready HX1 WX1 HY1 WY1 HX2 WX2 HY2 WY2.
  destruct (add_training_pts_step typ X1 Y1 kx s n1 d Htyp Hready HX1 WX1 HY1 WY1)
    as (s1 & e1 & Hrun1 & Htyp1 & Hst1 & Hready1 & Hrx1 & Hry1 & Hdx1 & Hdy1).
  rewrite <- Hst1 in Hready1.
  destruct (add_training_pts_step typ X2 Y2 kx s1 n2 d Htyp1 Hready1 HX2 WX2 HY2 WY2)
    as (s2 & e2 & Hrun2 & Htyp2 & Hst2 & Hready2 & Hrx2 & Hry2 & Hdx2 & Hdy2).
  rewrite Hst1 in Hrx2, Hry2, Hdx2, Hdy2. simpl in Hrx2, Hry2, Hdx2, Hdy2.
  exists s1, s2, e2.
  split; [exact Hrun1|]. split; [exact Hrun2|]. split; [exact Hst2|].
  assert (Hx : rows_of e2.1
               = slot_rows_x (stored s typ (key_of kx)) ++ rows_of X1 ++ rows_of X2)
    by (rewrite Hrx2, Hrx1, <- app_assoc; reflexivity).
  assert (Hy : rows_of e2.2
               = slot_rows_y (stored s typ (key_of kx))
                 ++ rows_of (column n1 Y1) ++ rows_of (column n2 Y2))
    by (rewrite Hry2, Hry1, <- app_assoc; reflexivity).
  split; [exact Hx|]. split; [exact Hy|].
  destruct Hready2 as (m & Hs1 & Hs2 & _ & _).
  split.
  { rewrite Hx, !length_app, (length_rows_of X1 n1 d HX1),
      (length_rows_of X2 n2 d HX2). lia. }
  split.
  { rewrite (length_rows_of _ _ _ Hs1), (length_rows_of _ _ _ Hs2). reflexivity. }
  intros Hnone. rewrite Hnone in *. simpl in *.
  split; [exact Hx|].
  split; [rewrite Hdy2, Hdy1; reflexivity|].
  assert (Hm : m = (n1 + n2)%nat).
  { rewrite <- (length_rows_of _ _ _ Hs1), Hx, length_app,
      (length_rows_of X1 n1 d HX1), (length_rows_of X2 n2 d HX2). reflexivity. }
  rewrite Hs1, Hs2, Hm. split; reflexivity.
Qed.

(** C6. Whatever an insertion of a 2-D [xt] of [n] rows does, every
    slot of the store still holds as many output rows as input rows
    afterwards. When [yt] does not hold exactly [n] values the call
    raises numpy's shape error and the object is untouched. When it
    does, the outputs are stored as a column: into an empty slot as the
    [(n, 1)] column next to [xt]; into a slot that holds [m] rows with
    the same number of columns as the [(m + n, 1)] column of the old
    outputs followed by the new ones, next to the old inputs followed
    by [xt]. With another number of columns, or without the tier, the
    call fails and the store is as before. *)
Theorem add_training_pts_keeps_rows_matched typ xt yt kx s n d :
  store_inv s → shape xt = [n; d] →
  store_inv (add_training_pts typ xt yt kx s).2 ∧
  (∀ typ' key' e, stored (add_training_pts typ xt yt kx s).2 typ' key' = Some e →
     nrows e.1 = nrows e.2) ∧
  (asize yt ≠ n →
     add_training_pts typ xt yt kx s
     = (Raise (ValueError "total size of new array must be unchanged"), s)) ∧
  (asize yt = n → is_Some (training_pts s !! typ) → stored s typ (key_of kx) = None →
     (add_training_pts typ xt yt kx s).1 = Ok tt ∧
     stored (add_training_pts typ xt yt kx s).2 typ (key_of kx)
     = Some (xt, mk_ndarray [n; 1%nat] (data yt))) ∧
  (asize yt = n → ∀ e0, stored s typ (key_of kx) = Some e0 →
     (shape e0.1 !! 1%nat = Some d →
        (add_training_pts typ xt yt kx s).1 = Ok tt ∧
        stored (add_training_pts typ xt yt kx s).2 typ (key_of kx)
        = Some (mk_ndarray [(nrows e0.1 + n)%nat; d] (data e0.1 ++ data xt),
                mk_ndarray [(nrows e0.1 + n)%nat; 1%nat] (data e0.2 ++ data yt))) ∧
     (shape e0.1 !! 1%nat ≠ Some d →
        is_ok (add_training_pts typ xt yt kx s).1 = false ∧
        training_pts (add_training_pts typ xt yt kx s).2 = training_pts s)) ∧
  (training_pts s !! typ = None →
     is_ok (add_training_pts typ xt yt kx s).1 = false ∧
     training_pts (add_training_pts typ xt yt kx s).2 = training_pts s).
Proof.
  intros Hinv Hs.
  assert (Hinv1 : store_inv (record_facts kx xt s)).
  { intros t k e. rewrite stored_record_facts. apply Hinv. }
  assert (Htp1 : training_pts (record_facts kx xt s) = training_pts s)
    by (destruct kx; reflexivity).
  assert (Hmain : store_inv (add_training_pts typ xt yt kx s).2).
  { rewrite (add_training_pts_unfold typ xt yt kx s n d Hs).
    destruct (decide (asize yt = n)) as [Hn|Hn].
    2: { rewrite (reshape_column_fail yt n Hn). exact Hinv. }
    rewrite (reshape_column_ok yt n Hn). cbv zeta.
    destruct (training_pts s !! typ) as [pts|] eqn:Htyp; [|exact Hinv1].
    destruct (pts !! key_of kx) as [[X0 Y0]|] eqn:Hk.
    - assert (Hst : stored s typ (key_of kx) = Some (X0, Y0))
        by (unfold stored; rewrite Htyp; exact Hk).
      destruct (Hinv _ _ _ Hst) as (m & d0 & HX0 & HY0). simpl in HX0, HY0. simpl.
      destruct (vstack X0 xt) as [x|e] eqn:Hvx; [|exact Hinv1].
      rewrite (vstack_2d Y0 (mk_ndarray [n; 1%nat] (data yt)) m n 1%nat HY0 eq_refl).
      simpl. apply store_inv_insert; [exact Htyp | exact Hinv |].
      destruct (decide (d0 = d)) as [->|Hd].
      + rewrite (vstack_2d X0 xt m n d HX0 Hs) in Hvx. inversion Hvx; subst x.
        exists (m + n)%nat, d. split; reflexivity.
      + pose proof (vstack_2d_mismatch X0 xt m n d0 d HX0 Hs Hd) as Hbad.
        rewrite Hvx in Hbad. discriminate.
    - simpl. apply store_inv_insert; [exact Htyp | exact Hinv |].
      exists n, d. split; [exact Hs | reflexivity]. }
  split; [exact Hmain|]. split.
  { intros t k e Hst. destruct (Hmain t k e Hst) as (m & d0 & H1 & H2).
    unfold nrows. rewrite H1, H2. reflexivity. }
  split.
  { intros Hn. rewrite (add_training_pts_unfold typ xt yt kx s n d Hs).
    rewrite (reshape_column_fail yt n Hn). reflexivity. }
  split.
  { intros Hn [pts Htyp] Hnone.
    rewrite (add_training_pts_unfold typ xt yt kx s n d Hs).
    rewrite (reshape_column_ok yt n Hn). cbv zeta. rewrite Htyp.
    unfold stored in Hnone. rewrite Htyp in Hnone.
    change (pts !! key_of kx = None) in Hnone. rewrite Hnone.
    simpl. split; [reflexivity|].
    rewrite (stored_insert _ _ _ _ _ _ _ _ Htyp). rewrite !decide_True by reflexivity.
    reflexivity. }
  split.
  { intros Hn e0 Hst.
    destruct (Hinv _ _ _ Hst) as (m & d0 & HX0 & HY0).
    rewrite (add_training_pts_unfold typ xt yt kx s n d Hs).
    rewrite (reshape_column_ok yt n Hn). cbv zeta.
    unfold stored in Hst.
    destruct (training_pts s !! typ) as [pts|] eqn:Htyp; [|discriminate].
    change (pts !! key_of kx = Some e0) in Hst. rewrite Hst.
    unfold nrows. rewrite HX0. simpl. split.
    - intros Hd. inversion Hd; subst d0.
      rewrite (vstack_2d e0.1 xt m n d HX0 Hs).
      rewrite (vstack_2d e0.2 (mk_ndarray [n; 1%nat] (data yt)) m n 1%nat HY0 eq_refl).
      simpl. split; [reflexivity|].
      rewrite (stored_insert _ _ _ _ _ _ _ _ Htyp). rewrite !decide_True by reflexivity.
      reflexivity.
    - intros Hd. assert (Hne : d0 ≠ d) by congruence.
      pose proof (vstack_2d_mismatch e0.1 xt m n d0 d HX0 Hs Hne) as Hbad.
      destruct (vstack e0.1 xt) as [x|e]; [discriminate|]. simpl.
      split; [reflexivity|exact Htp1]. }
  intros Hnone.
  rewrite (add_training_pts_unfold typ xt yt kx s n d Hs).
  destruct (reshape yt [n; 1%nat]); [|split; reflexivity].
  cbv zeta. rewrite Hnone. simpl. split; [reflexivity|exact Htp1].
Qed.

(** Running [add_training_pts] by cases, for inputs of any shape. *)
Ltac run_add :=
  unfold add_training_pts, get_entry, get_tier, set_entry, set_entry_x,
    set_entry_y, bind, lift, get, modify, ret, raise;
  repeat case_match; simplify_eq /=.

(** A derivative insertion never touches [dim] and [nt]. *)
Lemma add_training_pts_derivative_facts typ xt yt k s :
  dim (add_training_pts typ xt yt (Some k) s).2 = dim s ∧
  nt (add_training_pts typ xt yt (Some k) s).2 = nt s.
Proof. run_add; auto. Qed.

(** A value insertion that returns has recorded the shape of its [xt]. *)
Lemma add_training_pts_value_facts typ xt yt s s' :
  add_training_pts typ xt yt None s = (Ok tt, s') →
  ∃ n d, shape xt !! 0%nat = Some n ∧ shape xt !! 1%nat = Some d ∧
         dim s' = Some d ∧ nt s' = Some n.
Proof.
  run_add; intros; simplify_eq /=;
    eexists _, _; repeat split; eauto using shape_at_Ok.
Qed.

(** C4, as the code has it. [dim] and [nt] are assigned by every
    insertion of function values that returns, from the column and row
    counts of that call's [xt], whether or not the model already holds
    data; an insertion of derivatives leaves both as they were. *)
Theorem add_training_pts_records_facts typ xt yt kx s s' :
  add_training_pts typ xt yt kx s = (Ok tt, s') →
  match kx with
  | None => dim s' = shape xt !! 1%nat ∧ nt s' = shape xt !! 0%nat ∧
            is_Some (dim s') ∧ is_Some (nt s')
  | Some _ => dim s' = dim s ∧ nt s' = nt s
  end.
Proof.
  intros Hrun. destruct kx as [k|].
  - pose proof (add_training_pts_derivative_facts typ xt yt k s) as H.
    rewrite Hrun in H. exact H.
  - destruct (add_training_pts_value_facts typ xt yt s s' Hrun)
      as (n & d & H0 & H1 & Hd & Hn).
    rewrite Hd, Hn, H0, H1. eauto.
Qed.

(** An unknown fidelity tag: the call fails and the store is as before,
    whatever the arrays are. *)
Lemma add_training_pts_no_tier typ xt yt kx s :
  training_pts s !! typ = None →
  is_ok (add_training_pts typ xt yt kx s).1 = false ∧
  training_pts (add_training_pts typ xt yt kx s).2 = training_pts s.
Proof.
  intros Hnone. destruct kx; run_add; auto.
Qed.

(** C10. On a freshly constructed model only the tier ["exact"] exists:
    an insertion of well-shaped arrays under any other fidelity tag
    raises [KeyError] for that tag, and the store still consists of the
    empty tier ["exact"] alone. *)
Theorem add_training_pts_unknown_fidelity sm_opts printf_opts typ xt yt kx n d :
  typ ≠ "exact" → shape xt = [n; d] → asize yt = n →
  (add_training_pts typ xt yt kx (init sm_opts printf_opts)).1
  = Raise (KeyError (KStr typ)) ∧
  training_pts (add_training_pts typ xt yt kx (init sm_opts printf_opts)).2
  = {[ "exact" := ∅ ]} ∧
  training_pts (add_training_pts typ xt yt kx (init sm_opts printf_opts)).2 !! typ = None.
Proof.
  intros Htyp Hs Hn.
  assert (Hnone : training_pts (init sm_opts printf_opts) !! typ = None).
  { unfold init. simpl. apply lookup_singleton_ne. congruence. }
  rewrite (add_training_pts_unfold typ xt yt kx _ n d Hs).
  rewrite (reshape_column_ok yt n Hn). cbv zeta. rewrite Hnone. simpl.
  split; [reflexivity|].
  assert (Htp : training_pts (record_facts kx xt (init sm_opts printf_opts))
                = {[ "exact" := ∅ ]}) by (destruct kx; reflexivity).
  rewrite Htp. split; [reflexivity|]. apply lookup_singleton_ne. congruence.
Qed.

End StoreFacts.

(** ** The error metric and the life cycle *)

Section MetricFacts.
Context `{A : Algo}.
Implicit Types s : SM.

(** Self-check with a derivative index: [kx2 += 1] reads [kx2] before
    anything was assigned to it, whatever the store holds. *)
Lemma compute_rms_error_derivative_unbound s k :
  compute_rms_error None None (Some k) s = (Raise (UnboundLocalError "kx2"), s).
Proof. reflexivity. Qed.

(** Self-check of the values on a store without values. *)
Lemma compute_rms_error_values_missing s pts :
  training_pts s !! "exact" = Some pts → pts !! 0 = None →
  compute_rms_error None None None s
  = (Raise (ValueError "There is no training point data available for kx 0"), s).
Proof.
  intros Htyp Hk. unfold compute_rms_error.
  rewrite bind_ret, bind_get_tier, Htyp, Hk. reflexivity.
Qed.

(** Self-check of the values: the prediction at the stored inputs is
    compared with the stored outputs. *)
Lemma compute_rms_error_values s s' xt yt yt2 d :
  stored s "exact" 0 = Some (xt, yt) →
  predict xt None s = (Ok yt2, s') →
  arr_sub yt2 yt = Ok d →
  compute_rms_error None None None s
  = (Ok (Some (f_div (f_sqrt (f_add f_zero (f_sq (norm d))))
                     (f_sqrt (f_add f_zero (f_sq (norm yt)))))), s').
Proof.
  intros Hst Hp Hd. unfold compute_rms_error.
  rewrite bind_ret, bind_get_tier.
  pose proof Hst as Hst'. unfold stored in Hst'.
  destruct (training_pts s !! "exact") as [pts|]; [|discriminate].
  simpl in Hst'. rewrite Hst'.
  rewrite (bind_get_entry "exact" 0 _ s (xt, yt) Hst).
  unfold bind at 1. rewrite Hp. rewrite Hd. reflexivity.
Qed.

(** [train] without values for the tier ["exact"]. *)
Lemma train_values_missing s pts :
  training_pts s !! "exact" = Some pts → pts !! 0 = None →
  train s = (Raise (KeyError (KInt 0)), s).
Proof.
  intros Htyp Hk. unfold train, get_entry.
  rewrite bind_bind, bind_get_tier, Htyp, Hk. reflexivity.
Qed.

(** C2. A call that supplies exactly one of [xe] and [ye] enters
    neither branch of the [if]/[elif] and falls off the end of the
    body: [None] comes back and nothing is raised, predicted or
    changed. The call is not rejected, and the RMS error that the
    docstring announces is not computed either. *)
Theorem compute_rms_error_partial_supply (x y : ndarray scalar) kx s :
  compute_rms_error (Some x) None kx s = (Ok None, s) ∧
  compute_rms_error None (Some y) kx s = (Ok None, s).
Proof. split; reflexivity. Qed.

(** C3. On a freshly constructed model no derivative slot is populated,
    yet the self-check for a derivative index raises
    [UnboundLocalError], not the error that reports missing data. *)
Theorem compute_rms_error_missing_derivative_data sm_opts printf_opts k :
  stored (init sm_opts printf_opts) "exact" (key_of (Some k)) = None ∧
  compute_rms_error None None (Some k) (init sm_opts printf_opts)
  = (Raise (UnboundLocalError "kx2"), init sm_opts printf_opts).
Proof.
  split; [|apply compute_rms_error_derivative_unbound].
  unfold stored, init. simpl. rewrite lookup_singleton_eq. reflexivity.
Qed.

End MetricFacts.

(** ** The result cache *)

Section CacheFacts.
Context `{U : Unpickler} `{D : Digest} `{PV : Picklable pyval} `{W : PickleWriter}.

Lemma py_str_eq_true c v : py_str_eq c v = true ↔ v = PyStr c.
Proof.
  destruct v; simpl; try (split; [discriminate | congruence]).
  rewrite bool_decide_eq_true. split; congruence.
Qed.

Lemma _caching_load_hit fs filename checksum payload :
  readable_record fs filename checksum payload →
  _caching_load fs filename checksum = Ok (true, Some payload).
Proof.
  intros (bs & d & Hopen & Hload & Hc & Hd).
  unfold _caching_load, _caching_load_body.
  rewrite Hopen. simpl. rewrite Hload. simpl. rewrite Hc. simpl.
  rewrite bool_decide_true by reflexivity. rewrite Hd. reflexivity.
Qed.

Lemma _caching_load_cases fs filename checksum :
  _caching_load fs filename checksum = Ok (false, None) ∨
  ∃ payload, readable_record fs filename checksum payload ∧
             _caching_load fs filename checksum = Ok (true, Some payload).
Proof.
  unfold _caching_load, _caching_load_body.
  destruct (open_read fs filename) as [bs|e] eqn:Hopen; [|left; reflexivity].
  simpl. destruct (pickle_loads bs) as [obj|e] eqn:Hload; [|left; reflexivity].
  simpl. destruct obj as [| | | |l|d]; try (left; reflexivity).
  simpl. destruct (d !! "checksum") as [stored_sum|] eqn:Hc; [|left; reflexivity].
  simpl. destruct (py_str_eq checksum stored_sum) eqn:Heq; [|left; reflexivity].
  apply py_str_eq_true in Heq. subst stored_sum.
  destruct (d !! "data") as [payload|] eqn:Hd; [|left; reflexivity].
  right. exists payload. split; [|reflexivity].
  exists bs, d. auto.
Qed.

(** C7. [_caching_load] answers [(True, payload)] exactly when the file
    can be read and unpickles to a record whose checksum is the one
    asked for, and whose data is the payload; in every other case it
    answers [(False, None)]. It never raises. *)
Theorem _caching_load_hit_iff fs filename checksum :
  (∀ payload,
     _caching_load fs filename checksum = Ok (true, Some payload)
     ↔ readable_record fs filename checksum payload) ∧
  ((∀ payload, ¬ readable_record fs filename checksum payload) →
     _caching_load fs filename checksum = Ok (false, None)) ∧
  (∀ e, _caching_load fs filename checksum ≠ Raise e) ∧
  (_caching_load fs filename checksum = Ok (false, None) ∨
   ∃ payload, _caching_load fs filename checksum = Ok (true, Some payload)).
Proof.
  pose proof (_caching_load_cases fs filename checksum) as Hcases.
  repeat split.
  - intros Hhit. destruct Hcases as [Hmiss|(p & Hrec & Hp)].
    + rewrite Hmiss in Hhit. discriminate.
    + rewrite Hp in Hhit. inversion Hhit; subst. exact Hrec.
  - apply _caching_load_hit.
  - intros Hno. destruct Hcases as [Hmiss|(p & Hrec & _)]; [exact Hmiss|].
    exfalso. exact (Hno p Hrec).
  - intros e He. destruct Hcases as [Hmiss|(p & _ & Hp)]; congruence.
  - destruct Hcases as [Hmiss|(p & _ & Hp)]; eauto.
Qed.

(** [_caching_save] on a path that can be opened, with a record that
    can be pickled: the file holds the pickled record and nothing else
    changes. *)
Lemma _caching_save_ok fs filename checksum data bs :
  filename ∉ locked fs →
  pickle_dumps (save_dict checksum data) = Ok bs →
  _caching_save fs filename checksum data
  = (Ok tt, mk_fs (<[filename := bs]> (files fs)) (locked fs)).
Proof.
  intros Hfree Hdump. unfold _caching_save, open_write, write_file.
  rewrite decide_False by exact Hfree. rewrite Hdump. simpl.
  rewrite insert_insert_eq. reflexivity.
Qed.

(** C8. When the path can be opened and the record pickles to bytes
    from which [pickle.load] rebuilds it, [_caching_save] returns with
    exactly those bytes in the file, whatever was there before, and
    [_caching_load] of the same path with the same checksum answers
    [(True, data)]. *)
Theorem _caching_save_then_load fs filename checksum data bs :
  filename ∉ locked fs →
  pickle_dumps (save_dict checksum data) = Ok bs →
  pickle_loads bs = Ok (save_dict checksum data) →
  (_caching_save fs filename checksum data).1 = Ok tt ∧
  files (_caching_save fs filename checksum data).2 !! filename = Some bs ∧
  _caching_load (_caching_save fs filename checksum data).2 filename checksum
  = Ok (true, Some data).
Proof.
  intros Hfree Hdump Hload.
  rewrite (_caching_save_ok fs filename checksum data bs Hfree Hdump). simpl.
  split; [reflexivity|]. split; [apply lookup_insert_eq|].
  apply _caching_load_hit. exists bs, (<["checksum" := PyStr checksum]> (<["data" := data]> ∅)).
  split; [|split; [|split]].
  - unfold open_read. simpl. rewrite decide_False by exact Hfree.
    rewrite lookup_insert_eq. reflexivity.
  - exact Hload.
  - apply lookup_insert_eq.
  - rewrite lookup_insert_ne by discriminate. apply lookup_insert_eq.
Qed.

Context `{B : Base}.
Context `{PM : Picklable (gmap string pyval * gmap string (gmap Z entry))}.

(** What [_caching_checksum_sm] computes and how it leaves the model:
    as it was when the checksum was computed, without its printer when
    pickling raised. *)
Lemma _caching_checksum_sm_run (s : SM) :
  _caching_checksum_sm s =
  match _caching_checksum (sm_options s, training_pts s) with
  | Ok c => (Ok c, s)
  | Raise e => (Raise e, set_printer None s)
  end.
Proof.
  unfold _caching_checksum_sm, bind, get, modify, lift, ret. simpl.
  destruct (_caching_checksum (sm_options s, training_pts s)); [|reflexivity].
  destruct s; reflexivity.
Qed.

(** C9. Two models with the same options and the same training data
    get the same outcome from [_caching_checksum_sm], whatever their
    printers (and the rest of their state) hold; the outcome is the
    checksum of the pair (options, training data). *)
Theorem _caching_checksum_sm_ignores_printer (s1 s2 : SM) :
  sm_options s1 = sm_options s2 →
  training_pts s1 = training_pts s2 →
  (_caching_checksum_sm s1).1 = (_caching_checksum_sm s2).1 ∧
  (_caching_checksum_sm s1).1 = _caching_checksum (sm_options s1, training_pts s1).
Proof.
  intros Ho Ht. rewrite !_caching_checksum_sm_run, <- Ho, <- Ht.
  destruct (_caching_checksum (sm_options s1, training_pts s1)); split; reflexivity.
Qed.

End CacheFacts.

(** ** More on the training data store *)

Section StoreSteps.
Context `{A : Algo}.
Implicit Types s : SM.

(** [add_training_pts] is its first statements followed by
    [store_rows]. *)
Lemma add_training_pts_split typ xt yt kx :
  add_training_pts typ xt yt kx =
  (n <- lift (shape_at xt 0) ;;
   yt <- lift (reshape yt [n; 1%nat]) ;;
   kx <- match kx with
         | None =>
             d <- lift (shape_at xt 1) ;;
             modify (set_dim d) ;;;
             n <- lift (shape_at xt 0) ;;
             modify (set_nt n) ;;;
             ret 0
         | Some kx => ret (kx + 1)
         end ;;
   store_rows typ kx xt yt).
Proof. reflexivity. Qed.

(** [store_rows], statement by statement. *)
Lemma store_rows_run typ key xt y s :
  store_rows typ key xt y s =
  match training_pts s !! typ with
  | None => (Raise (KeyError (KStr typ)), s)
  | Some pts =>
      match pts !! key with
      | None =>
          (Ok tt, set_training_pts
                    (<[typ := <[key := (xt, y)]> pts]> (training_pts s)) s)
      | Some e0 =>
          match vstack e0.1 xt with
          | Raise e => (Raise e, s)
          | Ok x =>
              match vstack e0.2 y with
              | Raise e =>
                  (Raise e, set_training_pts
                              (<[typ := <[key := (x, e0.2)]> pts]> (training_pts s)) s)
              | Ok y' =>
                  (Ok tt, set_training_pts
                            (<[typ := <[key := (x, y')]> pts]> (training_pts s)) s)
              end
          end
      end
  end.
Proof.
  unfold store_rows. rewrite bind_get_tier.
  destruct (training_pts s !! typ) as [pts|] eqn:Htyp; [|reflexivity].
  destruct (pts !! key) as [e0|] eqn:Hk.
  - rewrite (bind_get_entry typ key _ s e0)
      by (unfold stored; rewrite Htyp; exact Hk).
    destruct (vstack e0.1 xt) as [x|e]; [rewrite bind_lift_ok|reflexivity].
    unfold set_entry_x. rewrite bind_modify.
    rewrite (alter_lookup_Some _ _ _ _ Htyp), (alter_lookup_Some _ _ _ _ Hk).
    rewrite (bind_get_entry typ key _ _ (x, e0.2))
      by (unfold stored; simpl; rewrite lookup_insert_eq; simpl;
          rewrite lookup_insert_eq; reflexivity).
    simpl.
    destruct (vstack e0.2 y) as [y'|e]; [rewrite bind_lift_ok|reflexivity].
    unfold set_entry_y, modify, set_training_pts. simpl.
    rewrite !alter_insert_eq. reflexivity.
  - unfold set_entry, modify.
    rewrite (alter_lookup_Some _ _ _ _ Htyp). reflexivity.
Qed.

(** The first statements of [add_training_pts]: they raise and leave
    the object alone, or reach [store_rows] with the slot chosen and
    only [dim] and [nt] assigned. *)
Lemma add_training_pts_run typ xt yt kx s :
  (∃ e, add_training_pts typ xt yt kx s = (Raise e, s)) ∨
  (∃ n y s1,
     shape_at xt 0 = Ok n ∧ reshape yt [n; 1%nat] = Ok y ∧
     add_training_pts typ xt yt kx s = store_rows typ (key_of kx) xt y s1 ∧
     sm_options s1 = sm_options s ∧ printf_options s1 = printf_options s ∧
     training_pts s1 = training_pts s ∧ printer s1 = printer s ∧
     internal s1 = internal s ∧
     match kx with
     | Some _ => s1 = s
     | None => ∃ d, shape_at xt 1 = Ok d ∧ s1 = set_nt n (set_dim d s)
     end).
Proof.
  rewrite add_training_pts_split.
  destruct (shape_at xt 0) as [n|e] eqn:H0; [|left; eexists; reflexivity].
  rewrite bind_lift_ok.
  destruct (reshape yt [n; 1%nat]) as [y|e] eqn:Hy; [|left; eexists; reflexivity].
  rewrite bind_lift_ok.
  destruct kx as [k|].
  - right. exists n, y, s. rewrite bind_ret. repeat split; auto.
  - destruct (shape_at xt 1) as [d|e] eqn:H1; [|left; eexists; reflexivity].
    right. exists n, y, (set_nt n (set_dim d s)).
    split; [reflexivity|]. split; [exact Hy|].
    split.
    { rewrite bind_bind, bind_lift_ok, bind_bind, bind_modify.
      rewrite bind_bind, bind_lift_ok, bind_bind, bind_modify, bind_ret.
      reflexivity. }
    repeat split; eauto.
Qed.

(** Every call leaves the store in one of the four ways of
    [store_step], and does not touch options, printer or algorithm
    state. *)
Lemma add_training_pts_store_step typ xt yt kx s :
  store_step typ (key_of kx) xt yt (training_pts s)
    (training_pts (add_training_pts typ xt yt kx s).2) ∧
  sm_options (add_training_pts typ xt yt kx s).2 = sm_options s ∧
  printf_options (add_training_pts typ xt yt kx s).2 = printf_options s ∧
  printer (add_training_pts typ xt yt kx s).2 = printer s ∧
  internal (add_training_pts typ xt yt kx s).2 = internal s.
Proof.
  destruct (add_training_pts_run typ xt yt kx s)
    as [[e Hrun]|(n & y & s1 & H0 & Hy & Hrun & Ho & Hp & Ht & Hpr & Hi & _)];
    rewrite Hrun; [simpl; split; [apply step_none|auto]|].
  rewrite store_rows_run, Ht.
  destruct (training_pts s !! typ) as [pts|] eqn:Htyp;
    [|simpl; split; [rewrite Ht; apply step_none|auto]].
  destruct (pts !! key_of kx) as [e0|] eqn:Hk.
  - destruct (vstack e0.1 xt) as [x|e] eqn:Hx;
      [|simpl; split; [rewrite Ht; apply step_none|auto]].
    destruct (vstack e0.2 y) as [y'|e] eqn:Hy'; simpl;
      (split; [|auto]).
    + eapply step_both; eauto.
    + eapply step_inputs; eauto.
  - simpl. split; [|auto]. eapply step_new; eauto.
Qed.

Lemma vstack_data {T} (a b c : ndarray T) :
  vstack a b = Ok c → data c = data a ++ data b.
Proof.
  unfold vstack, atleast_2d.
  destruct (shape a) as [|na [|da ta]] eqn:Ha;
    destruct (shape b) as [|nb [|db tb]] eqn:Hb; simpl; rewrite ?Ha, ?Hb;
    repeat case_decide; intros Hv; simplify_eq; reflexivity.
Qed.

Lemma lookup2_insert (tp : gmap string (gmap Z entry)) typ key e pts typ' key' :
  tp !! typ = Some pts →
  <[typ := <[key := e]> pts]> tp !! typ' ≫= (λ m, m !! key')
  = if decide ((typ', key') = (typ, key)) then Some e
    else tp !! typ' ≫= (λ m, m !! key').
Proof.
  intros Htyp. destruct (decide (typ' = typ)) as [->|Hne].
  - rewrite lookup_insert_eq. simpl. destruct (decide (key' = key)) as [->|Hk].
    + rewrite lookup_insert_eq, decide_True by reflexivity. reflexivity.
    + rewrite lookup_insert_ne, decide_False, Htyp by congruence. reflexivity.
  - rewrite lookup_insert_ne, decide_False by congruence. reflexivity.
Qed.

(** X1. A call touches one slot only: every slot other than the one for
    its fidelity tag and derivative index holds afterwards what it held
    before, and options, printer and algorithm state are unchanged,
    for arrays of any shape and whether the call returns or raises. *)
Theorem add_training_pts_other_slots typ xt yt kx s :
  (∀ typ' key', (typ', key') ≠ (typ, key_of kx) →
     stored (add_training_pts typ xt yt kx s).2 typ' key' = stored s typ' key') ∧
  sm_options (add_training_pts typ xt yt kx s).2 = sm_options s ∧
  printf_options (add_training_pts typ xt yt kx s).2 = printf_options s ∧
  printer (add_training_pts typ xt yt kx s).2 = printer s ∧
  internal (add_training_pts typ xt yt kx s).2 = internal s.
Proof.
  destruct (add_training_pts_store_step typ xt yt kx s) as (Hstep & Hrest).
  split; [|exact Hrest].
  intros typ' key' Hne. unfold stored.
  destruct Hstep as [|pts n y Ht Hk Hn Hy|pts e0 x Ht Hk Hx
                     |pts e0 n y x y' Ht Hk Hn Hy Hx Hy'];
    [reflexivity| | |];
    rewrite (lookup2_insert _ _ _ _ _ _ _ Ht), decide_False by exact Hne;
    reflexivity.
Qed.

(** X2. No call creates or removes a fidelity tier: the tags of the
    store are the same after the call as before, whatever the arguments
    and the outcome. *)
Theorem add_training_pts_tiers_fixed typ xt yt kx s :
  dom (training_pts (add_training_pts typ xt yt kx s).2) = dom (training_pts s).
Proof.
  destruct (add_training_pts_store_step typ xt yt kx s) as (Hstep & _).
  destruct Hstep as [|pts n y Ht Hk Hn Hy|pts e0 x Ht Hk Hx
                     |pts e0 n y x y' Ht Hk Hn Hy Hx Hy'];
    [reflexivity| | |];
    apply dom_insert_lookup_L; eauto.
Qed.

(** X3. The store only grows: a slot that held data before a call still
    holds data after it, and the inputs and outputs it held are the
    leading part of what it holds now, whatever the arguments and the
    outcome. *)
Theorem add_training_pts_only_grows typ xt yt kx s typ' key' e :
  stored s typ' key' = Some e →
  ∃ e', stored (add_training_pts typ xt yt kx s).2 typ' key' = Some e' ∧
        data e.1 `prefix_of` data e'.1 ∧ data e.2 `prefix_of` data e'.2.
Proof.
  intros Hst.
  destruct (add_training_pts_store_step typ xt yt kx s) as (Hstep & _).
  unfold stored in *.
  destruct Hstep as [|pts n y Ht Hk Hn Hy|pts e0 x Ht Hk Hx
                     |pts e0 n y x y' Ht Hk Hn Hy Hx Hy'].
  - exists e. split; [exact Hst|]. split; reflexivity.
  - rewrite (lookup2_insert _ _ _ _ _ _ _ Ht).
    destruct (decide ((typ', key') = (typ, key_of kx))) as [Heq'|Hne].
    + inversion Heq'; subst. rewrite Ht in Hst. simpl in Hst. congruence.
    + exists e. split; [exact Hst|]. split; reflexivity.
  - rewrite (lookup2_insert _ _ _ _ _ _ _ Ht).
    destruct (decide ((typ', key') = (typ, key_of kx))) as [Heq'|Hne].
    + inversion Heq'; subst. rewrite Ht in Hst. simpl in Hst.
      rewrite Hk in Hst. inversion Hst; subst e0.
      eexists. split; [reflexivity|]. simpl.
      rewrite (vstack_data _ _ _ Hx). split; [apply prefix_app_r|]; reflexivity.
    + exists e. split; [exact Hst|]. split; reflexivity.
  - rewrite (lookup2_insert _ _ _ _ _ _ _ Ht).
    destruct (decide ((typ', key') = (typ, key_of kx))) as [Heq'|Hne].
    + inversion Heq'; subst. rewrite Ht in Hst. simpl in Hst.
      rewrite Hk in Hst. inversion Hst; subst e0.
      eexists. split; [reflexivity|]. simpl.
      rewrite (vstack_data _ _ _ Hx), (vstack_data _ _ _ Hy').
      split; apply prefix_app_r; reflexivity.
    + exists e. split; [exact Hst|]. split; reflexivity.
Qed.

Lemma vstack_2d_mismatch_error {T} (a b : ndarray T) n m d d' :
  shape a = [n; d] → shape b = [m; d'] → d ≠ d' →
  vstack a b = Raise (ValueError "all the input array dimensions except for the concatenation axis must match exactly").
Proof.
  intros Ha Hb Hd. unfold vstack, atleast_2d. rewrite Ha, Hb. simpl.
  rewrite Ha, Hb. rewrite decide_False by congruence. reflexivity.
Qed.

(** X4. Inputs with another number of columns than the slot already
    holds are refused with numpy's error and the store is left as it
    was; but an insertion of values has by then overwritten [dim] and
    [nt] with the shape of the refused array. An insertion of
    derivatives leaves the whole object untouched. *)
Theorem add_training_pts_column_mismatch typ xt yt kx s e0 m d0 n d :
  stored s typ (key_of kx) = Some e0 →
  shape e0.1 = [m; d0] → shape xt = [n; d] → d0 ≠ d → asize yt = n →
  (add_training_pts typ xt yt kx s).1
  = Raise (ValueError "all the input array dimensions except for the concatenation axis must match exactly") ∧
  training_pts (add_training_pts typ xt yt kx s).2 = training_pts s ∧
  match kx with
  | None => dim (add_training_pts typ xt yt kx s).2 = Some d ∧
            nt (add_training_pts typ xt yt kx s).2 = Some n
  | Some _ => (add_training_pts typ xt yt kx s).2 = s
  end.
Proof.
  intros Hst HX0 Hs Hd Hn. unfold stored in Hst.
  destruct (training_pts s !! typ) as [pts|] eqn:Htyp; [|discriminate].
  change (pts !! key_of kx = Some e0) in Hst.
  rewrite (add_training_pts_unfold typ xt yt kx s n d Hs).
  rewrite (reshape_column_ok yt n Hn). cbv zeta. rewrite Htyp, Hst.
  rewrite (vstack_2d_mismatch_error e0.1 xt m n d0 d HX0 Hs Hd). simpl.
  split; [reflexivity|]. split; [destruct kx; reflexivity|].
  destruct kx; [reflexivity|]. unfold record_facts, nrows. rewrite Hs. auto.
Qed.

(** X5. Values need a 2-D array of inputs: with a 0-d or 1-D [xt] an
    insertion of values raises (at [xt.shape[0]], at the reshape of
    [yt], or at [xt.shape[1]]) and the object is untouched. *)
Theorem add_training_pts_values_need_2d typ xt yt s :
  (length (shape xt) < 2)%nat →
  ∃ e, add_training_pts typ xt yt None s = (Raise e, s).
Proof.
  intros Hlen. unfold add_training_pts, shape_at.
  destruct (shape xt) as [|n [|d rest]]; simpl in Hlen; [| |lia].
  - eexists. reflexivity.
  - simpl. rewrite bind_lift_ok.
    destruct (reshape yt [n; 1%nat]) as [y|e]; eexists; reflexivity.
Qed.

(** [add_training_pts] for derivatives, statement by statement, for
    inputs of any dimension. *)
Lemma add_training_pts_derivative_unfold typ xt yt k s n :
  shape_at xt 0 = Ok n →
  add_training_pts typ xt yt (Some k) s =
  match reshape yt [n; 1%nat] with
  | Raise e => (Raise e, s)
  | Ok y =>
      match training_pts s !! typ with
      | None => (Raise (KeyError (KStr typ)), s)
      | Some pts =>
          match pts !! (k + 1) with
          | None =>
              (Ok tt, set_training_pts
                        (<[typ := <[k + 1 := (xt, y)]> pts]> (training_pts s)) s)
          | Some e0 =>
              match vstack e0.1 xt with
              | Raise e => (Raise e, s)
              | Ok x =>
                  match vstack e0.2 y with
                  | Raise e =>
                      (Raise e, set_training_pts
                                  (<[typ := <[k + 1 := (x, e0.2)]> pts]> (training_pts s)) s)
                  | Ok y' =>
                      (Ok tt, set_training_pts
                                (<[typ := <[k + 1 := (x, y')]> pts]> (training_pts s)) s)
                  end
              end
          end
      end
  end.
Proof.
  intros Hn. rewrite add_training_pts_split, Hn, bind_lift_ok.
  destruct (reshape yt [n; 1%nat]) as [y|e]; [rewrite bind_lift_ok|reflexivity].
  rewrite bind_ret. apply store_rows_run.
Qed.

(** X6. Derivatives are accepted with a 1-D array of [n] inputs, and
    the second such insertion into a slot stacks the two input arrays
    as the two rows of a matrix while the outputs become a column of
    [n + n] values: the slot then holds 2 input rows for [n + n]
    outputs. *)
Theorem add_training_pts_1d_inputs typ xt yt k s n :
  is_Some (training_pts s !! typ) → stored s typ (k + 1) = None →
  shape xt = [n] → asize yt = n →
  ∃ s1 s2 e,
    add_training_pts typ xt yt (Some k) s = (Ok tt, s1) ∧
    add_training_pts typ xt yt (Some k) s1 = (Ok tt, s2) ∧
    stored s2 typ (k + 1) = Some e ∧
    shape e.1 = [2%nat; n] ∧ shape e.2 = [(n + n)%nat; 1%nat] ∧
    data e.1 = data xt ++ data xt ∧ data e.2 = data yt ++ data yt.
Proof.
  intros [pts Htyp] Hnone Hs Hn. unfold stored in Hnone. rewrite Htyp in Hnone.
  change (pts !! (k + 1) = None) in Hnone.
  assert (H0 : shape_at xt 0 = Ok n) by (unfold shape_at; rewrite Hs; reflexivity).
  eexists _, _, _.
  split.
  { rewrite (add_training_pts_derivative_unfold typ xt yt k s n H0).
    rewrite (reshape_column_ok yt n Hn), Htyp, Hnone. reflexivity. }
  split.
  { rewrite (add_training_pts_derivative_unfold typ xt yt k _ n H0).
    rewrite (reshape_column_ok yt n Hn). simpl.
    rewrite lookup_insert_eq, lookup_insert_eq. simpl.
    unfold vstack at 1. unfold atleast_2d. rewrite Hs. simpl.
    destruct (decide ([n] = [n])); [|congruence]. reflexivity. }
  unfold stored. simpl. rewrite lookup_insert_eq. simpl. rewrite lookup_insert_eq.
  split; [reflexivity|]. simpl. auto.
Qed.

(** X7. The slot is [kx + 1] for every integer: derivative index [-1]
    is the slot of the values. Values inserted with [kx = None] and
    data inserted with [kx = -1] end up stacked in slot 0, while [dim]
    and [nt] still describe the first of the two arrays. *)
Theorem add_training_pts_minus_one_is_values typ X1 Y1 X2 Y2 s n1 n2 d :
  is_Some (training_pts s !! typ) →
  slot_ready d (stored s typ 0) →
  shape X1 = [n1; d] → wf_array X1 → asize Y1 = n1 → wf_array Y1 →
  shape X2 = [n2; d] → wf_array X2 → asize Y2 = n2 → wf_array Y2 →
  ∃ s1 s2 e,
    add_training_pts typ X1 Y1 None s = (Ok tt, s1) ∧
    add_training_pts typ X2 Y2 (Some (-1)) s1 = (Ok tt, s2) ∧
    stored s2 typ 0 = Some e ∧
    rows_of e.1 = slot_rows_x (stored s typ 0) ++ rows_of X1 ++ rows_of X2 ∧
    dim s2 = Some d ∧ nt s2 = Some n1.
Proof.
  intros Htyp Hready HX1 WX1 HY1 WY1 HX2 WX2 HY2 WY2.
  destruct (add_training_pts_step typ X1 Y1 None s n1 d Htyp Hready HX1 WX1 HY1 WY1)
    as (s1 & e1 & Hrun1 & Htyp1 & Hst1 & Hready1 & Hrx1 & _).
  change (key_of None) with 0 in *.
  rewrite <- Hst1 in Hready1.
  destruct (add_training_pts_step typ X2 Y2 (Some (-1)) s1 n2 d Htyp1 Hready1
              HX2 WX2 HY2 WY2)
    as (s2 & e2 & Hrun2 & _ & Hst2 & _ & Hrx2 & _).
  change (key_of (Some (-1))) with 0 in *.
  exists s1, s2, e2. split; [exact Hrun1|]. split; [exact Hrun2|].
  split; [exact Hst2|]. split.
  { rewrite Hrx2, Hst1. simpl. rewrite Hrx1, <- app_assoc. reflexivity. }
  destruct (add_training_pts_value_facts typ X1 Y1 s s1 Hrun1)
    as (n & d' & H0 & H1 & Hd & Hnt).
  rewrite HX1 in H0, H1. simpl in H0, H1. simplify_eq.
  pose proof (add_training_pts_derivative_facts typ X2 Y2 (-1) s1) as [Hd2 Hn2].
  rewrite Hrun2 in Hd2, Hn2. simpl in Hd2, Hn2.
  rewrite Hd2, Hn2, Hd, Hnt. auto.
Qed.

End StoreSteps.

(** ** More on the life cycle and the error metric *)

Section LifeCycle.
Context `{A : Algo}.
Implicit Types s : SM.

Lemma same_data_refl s : same_data s s.
Proof. repeat split. Qed.

Lemma same_data_trans s1 s2 s3 : same_data s1 s2 → same_data s2 s3 → same_data s1 s3.
Proof.
  intros (H1 & H2 & H3 & H4 & H5) (G1 & G2 & G3 & G4 & G5).
  repeat split; congruence.
Qed.

Lemma keeps_data_ret {T} (a : T) : keeps_data (ret a).
Proof. intros s. apply same_data_refl. Qed.

Lemma keeps_data_raise {T} e : keeps_data (raise (A:=T) e).
Proof. intros s. apply same_data_refl. Qed.

Lemma keeps_data_lift {T} (r : result T) : keeps_data (lift r).
Proof. intros s. apply same_data_refl. Qed.

Lemma keeps_data_bind {T V} (m : M T) (k : T → M V) :
  keeps_data m → (∀ a, keeps_data (k a)) → keeps_data (bind m k).
Proof.
  intros Hm Hk s. unfold bind. specialize (Hm s).
  destruct (m s) as [[a|e] s1]; simpl in *; [|exact Hm].
  eapply same_data_trans; [exact Hm|apply Hk].
Qed.

Lemma keeps_data_get {V} (k : SM → M V) :
  (∀ s0, keeps_data (k s0)) → keeps_data (bind get k).
Proof. intros Hk s. rewrite bind_get. apply Hk. Qed.

Lemma keeps_data_with_printer attr f : keeps_data (with_printer attr f).
Proof.
  intros s. unfold with_printer. rewrite bind_get.
  destruct (printer s); repeat split.
Qed.

Lemma keeps_data_printf_option key : keeps_data (printf_option key).
Proof.
  intros s. unfold printf_option. rewrite bind_get.
  destruct (printf_options s !! key); repeat split.
Qed.

Lemma keeps_data_sm_option key : keeps_data (sm_option key).
Proof.
  intros s. unfold sm_option. rewrite bind_get.
  destruct (sm_options s !! key); repeat split.
Qed.

Lemma keeps_data_printf_and k1 k2 : keeps_data (printf_and k1 k2).
Proof.
  apply keeps_data_bind; [apply keeps_data_printf_option|].
  intros [|]; [apply keeps_data_printf_option|apply keeps_data_ret].
Qed.

Lemma keeps_data_get_tier typ : keeps_data (get_tier typ).
Proof.
  intros s. unfold get_tier. rewrite bind_get.
  destruct (training_pts s !! typ); repeat split.
Qed.

Lemma keeps_data_get_entry typ key : keeps_data (get_entry typ key).
Proof.
  apply keeps_data_bind; [apply keeps_data_get_tier|].
  intros pts. destruct (pts !! key); [apply keeps_data_ret|apply keeps_data_raise].
Qed.

Lemma keeps_data_timed_context {T} label key (body : M T) :
  keeps_data body → keeps_data (timed_context label key body).
Proof.
  intros Hb. unfold timed_context.
  apply keeps_data_bind; [apply keeps_data_with_printer|]. intros _ s.
  specialize (Hb s). destruct (body s) as [[v|e] s1]; simpl in Hb.
  - eapply same_data_trans; [exact Hb|].
    apply (keeps_data_bind (with_printer _ _) (λ _, ret v));
      [apply keeps_data_with_printer|intros; apply keeps_data_ret].
  - eapply same_data_trans; [exact Hb|].
    apply (keeps_data_bind (with_printer _ _) (λ _, raise e));
      [apply keeps_data_with_printer|intros; apply keeps_data_raise].
Qed.

Create HintDb keeps discriminated.
#[local] Hint Resolve keeps_data_ret keeps_data_raise keeps_data_lift
  keeps_data_with_printer keeps_data_printf_option keeps_data_sm_option
  keeps_data_printf_and keeps_data_get_tier keeps_data_get_entry : keeps.

Ltac keeps_step :=
  match goal with
  | |- keeps_data (bind get _) => apply keeps_data_get; intros
  | |- keeps_data (bind _ _) => apply keeps_data_bind; [|intros]
  | |- keeps_data (timed_context _ _ _) => apply keeps_data_timed_context
  | |- keeps_data (say _) => unfold say
  | |- keeps_data (if ?b then _ else _) => destruct b
  | |- keeps_data (match ?o with Some _ => _ | None => _ end) => destruct o
  | |- keeps_data (match ?p with (_, _) => _ end) => destruct p
  | |- keeps_data _ => solve [auto with keeps]
  end.

Lemma keeps_data_predict x kx :
  (∀ x k, keeps_data (evaluate x k)) → keeps_data (predict x kx).
Proof. intros He. unfold predict. repeat keeps_step. Qed.

(** X8. If the [evaluate] hook of a model leaves options, training data
    and recorded facts alone, so do [predict] and [compute_rms_error],
    in either mode and whether they return or raise: checking a model
    never changes what it was trained on. *)
Theorem evaluation_keeps_data x xe ye kx :
  (∀ x k, keeps_data (evaluate x k)) →
  keeps_data (predict x kx) ∧ keeps_data (compute_rms_error xe ye kx).
Proof.
  intros He. split; [apply keeps_data_predict, He|].
  pose proof (keeps_data_predict) as Hp.
  unfold compute_rms_error, read_local.
  destruct xe, ye, kx; repeat keeps_step; auto.
Qed.

(** X9. If the [fit] hook leaves options, training data and recorded
    facts alone, so does [train], whether it returns or raises. *)
Theorem train_keeps_data : keeps_data fit → keeps_data train.
Proof. intros Hf. unfold train. repeat keeps_step. Qed.

Lemma bind_printf_option {Y} key b (k : bool → M Y) s :
  printf_options s !! key = Some b → bind (printf_option key) k s = k b s.
Proof.
  intros Hk. unfold printf_option. rewrite bind_bind, bind_get, Hk. reflexivity.
Qed.

Lemma bind_sm_option {Y} key v (k : pyval → M Y) s :
  sm_options s !! key = Some v → bind (sm_option key) k s = k v s.
Proof.
  intros Hk. unfold sm_option. rewrite bind_bind, bind_get, Hk. reflexivity.
Qed.

Lemma bind_with_printer {Y} attr f (k : unit → M Y) s p :
  printer s = Some p →
  bind (with_printer attr f) k s = k tt (set_printer (Some (f p)) s).
Proof.
  intros Hp. unfold with_printer. rewrite bind_bind, bind_get, Hp. reflexivity.
Qed.

Lemma bind_with_printer_none {Y} attr f (k : unit → M Y) s :
  printer s = None →
  bind (with_printer attr f) k s = (Raise (AttributeError attr), s).
Proof.
  intros Hp. unfold with_printer. rewrite bind_bind, bind_get, Hp. reflexivity.
Qed.

(** [printf_options[k1] and printf_options[k2]] when the switches that
    are read exist. *)
Lemma bind_printf_and {Y} k2 (k : bool → M Y) s :
  (printf_options s !! "global" = Some false ∨
   (printf_options s !! "global" = Some true ∧ is_Some (printf_options s !! k2))) →
  ∃ b, bind (printf_and "global" k2) k s = k b s.
Proof.
  intros [Hg|[Hg [b Hb]]]; unfold printf_and; rewrite bind_bind.
  - exists false. rewrite (bind_printf_option _ _ _ _ Hg). reflexivity.
  - exists b. rewrite (bind_printf_option _ _ _ _ Hg).
    rewrite (bind_printf_option _ _ _ _ Hb). reflexivity.
Qed.

(** [train] on a model that has what it reads. *)
Lemma train_run s e n :
  stored s "exact" 0 = Some e → shape e.1 !! 0%nat = Some n →
  train_ready s → keeps_printer fit →
  ∃ p1 p2,
    (train s).1 = (fit (set_printer (Some p1) s)).1 ∧
    (train s).2 = set_printer (Some p2) (fit (set_printer (Some p1) s)).2.
Proof.
  intros Hst Hn ([p Hp] & [name Hname] & Hsw) Hkeep.
  assert (Hg : ∃ g, printf_options s !! "global" = Some g)
    by (destruct Hsw as [?|[? _]]; eauto).
  destruct Hg as [g Hg].
  assert (Hsw1 : printf_options s !! "global" = Some false ∨
                 (printf_options s !! "global" = Some true ∧
                  is_Some (printf_options s !! "problem")))
    by (destruct Hsw as [?|(? & ? & ?)]; auto).
  assert (Hsw2 : printf_options s !! "global" = Some false ∨
                 (printf_options s !! "global" = Some true ∧
                  is_Some (printf_options s !! "time_train")))
    by (destruct Hsw as [?|(? & ? & ?)]; auto).
  unfold train.
  rewrite (bind_get_entry "exact" 0 _ s e Hst).
  unfold shape_at. rewrite Hn, bind_lift_ok.
  rewrite (bind_printf_option _ _ _ _ Hg).
  rewrite (bind_with_printer _ _ _ _ _ Hp).
  erewrite bind_with_printer by reflexivity.
  erewrite bind_sm_option by exact Hname.
  erewrite bind_with_printer by reflexivity.
  match goal with
  | |- context [bind (printf_and "global" "problem") ?k ?s0] =>
      destruct (bind_printf_and "problem" k s0 Hsw1) as [b1 Hb1]; rewrite Hb1
  end.
  erewrite bind_with_printer by reflexivity.
  erewrite bind_with_printer by reflexivity.
  unfold say.
  erewrite bind_with_printer by reflexivity.
  erewrite bind_with_printer by reflexivity.
  match goal with
  | |- context [bind (printf_and "global" "time_train") ?k ?s0] =>
      destruct (bind_printf_and "time_train" k s0 Hsw2) as [b2 Hb2]; rewrite Hb2
  end.
  erewrite bind_with_printer by reflexivity.
  erewrite bind_sm_option by exact Hname.
  match goal with
  | |- context [bind (if ?c then with_printer ?a1 ?f1 else with_printer ?a2 ?f2) ?k ?s0] =>
      assert (Htitle : ∃ p', bind (if c then with_printer a1 f1 else with_printer a2 f2) k s0
                             = k tt (set_printer (Some p') s))
        by (destruct c; eexists; erewrite bind_with_printer by reflexivity; reflexivity)
  end.
  destruct Htitle as [p' Htitle]. rewrite Htitle. clear Htitle.
  unfold timed_context.
  erewrite bind_with_printer by reflexivity.
  change (set_printer (Some ?q) (set_printer _ s)) with (set_printer (Some q) s).
  match goal with
  | |- context [fit (set_printer (Some ?q) s)] => exists q; set (s1 := set_printer (Some q) s)
  end.
  assert (Hp2 : is_Some (printer (fit s1).2)) by (apply Hkeep; simpl; eauto).
  destruct Hp2 as [p2 Hp2].
  destruct (fit s1) as [[[]|err] s2]; simpl in Hp2 |- *.
  - rewrite (bind_with_printer _ _ _ _ _ Hp2). eexists. split; reflexivity.
  - rewrite (bind_with_printer _ _ _ _ _ Hp2). eexists. split; reflexivity.
Qed.

(** X10. With values stored for ["exact"] and the printer, the model
    name and the reporting switches in place, [train] is [fit] run on
    the model with only its printer advanced: [train] returns exactly
    when [fit] does and raises the very exception [fit] raises, and
    what it leaves is what [fit] left, up to the printer. The switches
    ['problem'] and ['time_train'] are only needed when ['global'] is
    on. *)
Theorem train_runs_fit s e n :
  stored s "exact" 0 = Some e → shape e.1 !! 0%nat = Some n →
  train_ready s → keeps_printer fit →
  ∃ p1 p2,
    (train s).1 = (fit (set_printer (Some p1) s)).1 ∧
    (train s).2 = set_printer (Some p2) (fit (set_printer (Some p1) s)).2.
Proof. apply train_run. Qed.

(** X21. Construct, insert, train: on a model as the constructor
    leaves it, with reporting ready, an insertion of [n] values for 2-D
    inputs with [d] columns returns, records [dim = d] and [nt = n],
    and the [train] that follows is [fit] run on that model with only
    its printer advanced. *)
Theorem construct_insert_train sm_opts printf_opts xt yt n d :
  train_ready (init sm_opts printf_opts) →
  shape xt = [n; d] → asize yt = n → keeps_printer fit →
  ∃ s1 p1 p2,
    add_training_pts "exact" xt yt None (init sm_opts printf_opts) = (Ok tt, s1) ∧
    dim s1 = Some d ∧ nt s1 = Some n ∧
    (train s1).1 = (fit (set_printer (Some p1) s1)).1 ∧
    (train s1).2 = set_printer (Some p2) (fit (set_printer (Some p1) s1)).2.
Proof.
  intros Hready Hs Hn Hkeep.
  rewrite (add_training_pts_unfold "exact" xt yt None _ n d Hs).
  rewrite (reshape_column_ok yt n Hn). cbv zeta.
  change (training_pts (init sm_opts printf_opts)) with
    ({[ "exact" := ∅ ]} : gmap string (gmap Z entry)).
  rewrite lookup_singleton_eq, lookup_empty.
  match goal with
  | |- ∃ s1 _ _, (_, ?st) = (_, s1) ∧ _ => set (s1 := st)
  end.
  assert (Hst : stored s1 "exact" 0 = Some (xt, column n yt)).
  { unfold stored, s1. simpl. rewrite lookup_insert_eq. simpl. apply lookup_insert_eq. }
  destruct (train_run s1 (xt, column n yt) n Hst) as (p1 & p2 & H1 & H2);
    [simpl; rewrite Hs; reflexivity | exact Hready | exact Hkeep |].
  exists s1, p1, p2. split; [reflexivity|].
  split; [unfold s1, record_facts; simpl; rewrite Hs; reflexivity|].
  split; [unfold s1, record_facts, nrows; simpl; rewrite Hs; reflexivity|].
  split; assumption.
Qed.

(** X11. Without values for ["exact"] (no such tier, or no slot 0 in
    it) [train] raises [KeyError] at its first statement: nothing is
    reported, [fit] is not run and the model is untouched. *)
Theorem train_without_values s :
  stored s "exact" 0 = None →
  train s = (Raise (KeyError (match training_pts s !! "exact" with
                              | Some _ => KInt 0
                              | None => KStr "exact"
                              end)), s).
Proof.
  intros Hst. unfold stored in Hst. unfold train, get_entry.
  rewrite bind_bind, bind_get_tier.
  destruct (training_pts s !! "exact") as [pts|]; [|reflexivity].
  change (pts !! 0 = None) in Hst. rewrite Hst. reflexivity.
Qed.

(** X12. The self-check of the values on a model without values raises
    before anything is predicted and leaves the model untouched: the
    [ValueError] of the method when the tier ["exact"] exists, a
    [KeyError] for ["exact"] when the store has no such tier. *)
Theorem compute_rms_error_without_values s :
  stored s "exact" 0 = None →
  compute_rms_error None None None s
  = (Raise (match training_pts s !! "exact" with
            | Some _ => ValueError "There is no training point data available for kx 0"
            | None => KeyError (KStr "exact")
            end), s).
Proof.
  intros Hst. unfold stored in Hst. unfold compute_rms_error.
  rewrite bind_ret, bind_get_tier.
  destruct (training_pts s !! "exact") as [pts|]; [|reflexivity].
  change (pts !! 0 = None) in Hst. rewrite Hst. reflexivity.
Qed.

(** The self-check of the values in terms of [predict]. *)
Lemma compute_rms_error_values_run s xt yt :
  stored s "exact" 0 = Some (xt, yt) →
  compute_rms_error None None None s =
  match predict xt None s with
  | (Ok yt2, s') =>
      match arr_sub yt2 yt with
      | Ok d => (Ok (Some (self_check_error d yt)), s')
      | Raise e => (Raise e, s')
      end
  | (Raise e, s') => (Raise e, s')
  end.
Proof.
  intros Hst. unfold compute_rms_error.
  rewrite bind_ret, bind_get_tier.
  pose proof Hst as Hst'. unfold stored in Hst'.
  destruct (training_pts s !! "exact") as [pts|]; [|discriminate].
  change (pts !! 0 = Some (xt, yt)) in Hst'. rewrite Hst'.
  rewrite (bind_get_entry "exact" 0 _ s (xt, yt) Hst).
  unfold bind at 1. destruct (predict xt None s) as [[yt2|e] s']; [|reflexivity].
  unfold bind, lift. destruct (arr_sub yt2 yt); reflexivity.
Qed.

(** X13. Insert, then check: after values [(xt, yt)] went into an empty
    slot of ["exact"], the argument-free [compute_rms_error] predicts
    at exactly the inserted [xt] and compares with the inserted [yt],
    laid out as a column; a failure of the prediction or of the
    subtraction is raised unchanged. *)
Theorem add_then_self_check xt yt s n d :
  is_Some (training_pts s !! "exact") → stored s "exact" 0 = None →
  shape xt = [n; d] → asize yt = n →
  ∃ s1,
    add_training_pts "exact" xt yt None s = (Ok tt, s1) ∧
    stored s1 "exact" 0 = Some (xt, column n yt) ∧
    compute_rms_error None None None s1 =
    match predict xt None s1 with
    | (Ok yt2, s2) =>
        match arr_sub yt2 (column n yt) with
        | Ok r => (Ok (Some (self_check_error r (column n yt))), s2)
        | Raise e => (Raise e, s2)
        end
    | (Raise e, s2) => (Raise e, s2)
    end.
Proof.
  intros [pts Htyp] Hnone Hs Hn. unfold stored in Hnone. rewrite Htyp in Hnone.
  change (pts !! 0 = None) in Hnone.
  eexists. split.
  { rewrite (add_training_pts_unfold "exact" xt yt None s n d Hs).
    rewrite (reshape_column_ok yt n Hn). cbv zeta. rewrite Htyp.
    change (key_of None) with 0. rewrite Hnone. reflexivity. }
  assert (Hst : stored (set_training_pts
                   (<["exact" := <[0 := (xt, column n yt)]> pts]> (training_pts s))
                   (record_facts None xt s)) "exact" 0 = Some (xt, column n yt)).
  { unfold stored. simpl. rewrite lookup_insert_eq. simpl. apply lookup_insert_eq. }
  split; [exact Hst|].
  apply (compute_rms_error_values_run _ xt (column n yt) Hst).
Qed.

Lemma bind_ok_inv {T V} (m : M T) (k : T → M V) s v s' :
  bind m k s = (Ok v, s') → ∃ a s1, m s = (Ok a, s1) ∧ k a s1 = (Ok v, s').
Proof.
  unfold bind. destruct (m s) as [[a|e] s1]; [eauto|discriminate].
Qed.

Lemma lift_ok_inv {T} (r : result T) s a s1 :
  lift r s = (Ok a, s1) → r = Ok a ∧ s1 = s.
Proof. unfold lift. intros H. inversion H; auto. Qed.

Lemma with_printer_ok_inv attr f s u s1 :
  with_printer attr f s = (Ok u, s1) →
  ∃ p, printer s = Some p ∧ s1 = set_printer (Some (f p)) s.
Proof.
  unfold with_printer. rewrite bind_get.
  destruct (printer s) as [p|]; [|discriminate].
  intros H. inversion H. eauto.
Qed.

Lemma printf_option_ok_inv key s b s1 :
  printf_option key s = (Ok b, s1) → s1 = s.
Proof.
  unfold printf_option. rewrite bind_get.
  destruct (printf_options s !! key); intros H; inversion H; reflexivity.
Qed.

Lemma printf_and_ok_inv k1 k2 s b s1 :
  printf_and k1 k2 s = (Ok b, s1) → s1 = s.
Proof.
  unfold printf_and. intros H.
  apply bind_ok_inv in H as (g & s0 & Hg & H).
  apply printf_option_ok_inv in Hg. subst s0.
  destruct g; [apply printf_option_ok_inv in H; exact H|].
  inversion H; reflexivity.
Qed.

Lemma sm_option_ok_inv key s v s1 :
  sm_option key s = (Ok v, s1) → s1 = s.
Proof.
  unfold sm_option. rewrite bind_get.
  destruct (sm_options s !! key); intros H; inversion H; reflexivity.
Qed.

Lemma timed_context_ok_states {T} label key (body : M T) s v s' :
  timed_context label key body s = (Ok v, s') →
  ∃ p s2 p2,
    printer s = Some p ∧
    body (set_printer (Some (timed_enter label key p)) s) = (Ok v, s2) ∧
    printer s2 = Some p2 ∧
    s' = set_printer (Some (timed_exit label key false p2)) s2.
Proof.
  unfold timed_context. intros Hrun.
  apply bind_ok_inv in Hrun as (u & s1 & Hin & Hrun).
  apply with_printer_ok_inv in Hin as (p & Hp & ->).
  destruct (body (set_printer (Some (timed_enter label key p)) s))
    as [[w|e] s2] eqn:Hb.
  - apply bind_ok_inv in Hrun as (u' & s3 & Hout & Hret).
    apply with_printer_ok_inv in Hout as (p2 & Hp2 & ->).
    inversion Hret; subst. exists p, s2, p2. auto.
  - apply bind_ok_inv in Hrun as (u' & s3 & _ & Hret). discriminate.
Qed.

(** X14. When [predict] returns, it returns an [(n, 1)] column, [n]
    being the number of rows of [x], holding the values that the
    [evaluate] hook produced for [x] and slot [kx + 1] (slot 0 without
    a derivative index) when run on this very model, changed in its
    printer only; the hook had produced exactly [n] values, and the
    model is left as the hook left it, up to the printer. *)
Theorem predict_returns_column x kx s y s' :
  predict x kx s = (Ok y, s') →
  ∃ n p1 y0 s2 p2,
    shape x !! 0%nat = Some n ∧
    evaluate x (key_of kx) (set_printer (Some p1) s) = (Ok y0, s2) ∧
    asize y0 = n ∧ y = mk_ndarray [n; 1%nat] (data y0) ∧
    s' = set_printer (Some p2) s2.
Proof.
  unfold predict, say. intros Hrun.
  apply bind_ok_inv in Hrun as (n & s1 & Hn & Hrun).
  apply lift_ok_inv in Hn as [Hn ->]. apply shape_at_Ok in Hn.
  apply bind_ok_inv in Hrun as (b & s1 & Hb & Hrun).
  apply printf_and_ok_inv in Hb as ->.
  apply bind_ok_inv in Hrun as (u1 & s1 & Hw & Hrun).
  apply with_printer_ok_inv in Hw as (q1 & Hq1 & ->).
  apply bind_ok_inv in Hrun as (name & s1 & Hname & Hrun).
  apply sm_option_ok_inv in Hname as ->.
  apply bind_ok_inv in Hrun as (u2 & s1 & Hw & Hrun).
  assert (Hw' : ∃ q, s1 = set_printer (Some q) s).
  { destruct (py_str_eq "MixExp" name);
      apply with_printer_ok_inv in Hw as (q & _ & ->); eexists; reflexivity. }
  destruct Hw' as [q2 ->]. clear Hw.
  apply bind_ok_inv in Hrun as (u3 & s1 & Hw & Hrun).
  apply with_printer_ok_inv in Hw as (q3 & _ & ->).
  apply bind_ok_inv in Hrun as (u4 & s1 & Hw & Hrun).
  apply with_printer_ok_inv in Hw as (q4 & _ & ->).
  apply bind_ok_inv in Hrun as (y0 & s1 & Hev & Hrun).
  apply timed_context_ok_states in Hev as (q5 & s2 & p2 & _ & Hev & Hp2 & ->).
  apply bind_ok_inv in Hrun as (s3 & s4 & Hget & Hrun).
  inversion Hget; subst s3 s4. clear Hget.
  apply bind_ok_inv in Hrun as (t & s3 & Ht & Hrun).
  assert (s3 = set_printer (Some (timed_exit "Predicting" (Some "prediction") false p2)) s2) as ->.
  { simpl in Ht. apply lift_ok_inv in Ht as [_ ->]. reflexivity. }
  clear Ht.
  apply bind_ok_inv in Hrun as (tp & s3 & Ht & Hrun).
  apply lift_ok_inv in Ht as [_ ->].
  apply bind_ok_inv in Hrun as (u5 & s3 & Hw & Hrun).
  apply with_printer_ok_inv in Hw as (q6 & _ & ->).
  apply bind_ok_inv in Hrun as (u6 & s3 & Hw & Hrun).
  apply with_printer_ok_inv in Hw as (q7 & _ & ->).
  apply bind_ok_inv in Hrun as (u7 & s3 & Hw & Hrun).
  apply with_printer_ok_inv in Hw as (q8 & _ & ->).
  apply lift_ok_inv in Hrun as [Hre ->]. apply reshape_inv in Hre as [Hsize Hy].
  eexists n, _, y0, s2, _.
  split; [exact Hn|]. split; [exact Hev|].
  split; [unfold prod_shape in Hsize; simpl in Hsize; lia|].
  split; [exact Hy|]. reflexivity.
Qed.
End LifeCycle.

(** ** More on the result cache *)

Section CacheSteps.
Context `{U : Unpickler} `{D : Digest} `{PV : Picklable pyval} `{W : PickleWriter}.

(** X15. [_caching_save] touches one file only: whatever its outcome,
    every other path holds afterwards what it held before, and the set
    of paths that cannot be opened is the same. *)
Theorem _caching_save_other_files fs filename checksum data other :
  other ≠ filename →
  files (_caching_save fs filename checksum data).2 !! other = files fs !! other ∧
  locked (_caching_save fs filename checksum data).2 = locked fs.
Proof.
  intros Hne. unfold _caching_save, open_write, write_file.
  destruct (decide (filename ∈ locked fs)); [split; reflexivity|].
  destruct (pickle_dumps (save_dict checksum data)); simpl;
    rewrite ?lookup_insert_ne by congruence; split; reflexivity.
Qed.

Lemma _caching_load_saved fs filename checksum data bs asked :
  filename ∉ locked fs →
  pickle_dumps (save_dict checksum data) = Ok bs →
  pickle_loads bs = Ok (save_dict checksum data) →
  _caching_load (_caching_save fs filename checksum data).2 filename asked
  = if decide (asked = checksum) then Ok (true, Some data) else Ok (false, None).
Proof.
  intros Hfree Hdump Hload.
  rewrite (_caching_save_ok fs filename checksum data bs Hfree Hdump). simpl.
  unfold _caching_load, _caching_load_body, open_read. simpl.
  rewrite decide_False by exact Hfree. rewrite lookup_insert_eq. simpl.
  rewrite Hload. unfold save_dict. simpl. rewrite lookup_insert_eq. simpl.
  unfold bool_decide. destruct (decide_rel eq asked checksum) as [->|Hne].
  - rewrite decide_True by reflexivity.
    rewrite lookup_insert_ne by discriminate. rewrite lookup_insert_eq. reflexivity.
  - rewrite decide_False by exact Hne. reflexivity.
Qed.

(** X17. A record saved under one checksum is a miss for every other
    checksum: asking for it with a different checksum answers
    [(False, None)]. *)
Theorem _caching_load_stale fs filename checksum data bs asked :
  filename ∉ locked fs →
  pickle_dumps (save_dict checksum data) = Ok bs →
  pickle_loads bs = Ok (save_dict checksum data) →
  asked ≠ checksum →
  _caching_load (_caching_save fs filename checksum data).2 filename asked
  = Ok (false, None).
Proof.
  intros Hfree Hdump Hload Hne.
  rewrite (_caching_load_saved fs filename checksum data bs asked Hfree Hdump Hload).
  rewrite decide_False by exact Hne. reflexivity.
Qed.

(** X18. The last save wins: after two saves to the same path the load
    answers the second payload for the second checksum, and is a miss
    for the first checksum when the two differ. *)
Theorem _caching_save_twice fs filename c1 d1 c2 d2 bs1 bs2 :
  filename ∉ locked fs →
  pickle_dumps (save_dict c1 d1) = Ok bs1 →
  pickle_dumps (save_dict c2 d2) = Ok bs2 →
  pickle_loads bs2 = Ok (save_dict c2 d2) →
  let fs2 := (_caching_save (_caching_save fs filename c1 d1).2 filename c2 d2).2 in
  _caching_load fs2 filename c2 = Ok (true, Some d2) ∧
  (c1 ≠ c2 → _caching_load fs2 filename c1 = Ok (false, None)).
Proof.
  intros Hfree Hd1 Hd2 Hl2 fs2.
  assert (Hfree1 : filename ∉ locked (_caching_save fs filename c1 d1).2).
  { rewrite (_caching_save_ok fs filename c1 d1 bs1 Hfree Hd1). exact Hfree. }
  unfold fs2. split.
  - rewrite (_caching_load_saved _ filename c2 d2 bs2 c2 Hfree1 Hd2 Hl2).
    rewrite decide_True by reflexivity. reflexivity.
  - intros Hne.
    rewrite (_caching_load_saved _ filename c2 d2 bs2 c1 Hfree1 Hd2 Hl2).
    rewrite decide_False by exact Hne. reflexivity.
Qed.

Context `{A : Algo}.
Context `{PM : Picklable (gmap string pyval * gmap string (gmap Z entry))}.

(** X19. Computing the checksum of a model is repeatable and, when it
    succeeds, invisible: a second call gives the outcome of the first,
    and a call that returns leaves the model exactly as it was. *)
Theorem _caching_checksum_sm_repeatable (s : SM) :
  (_caching_checksum_sm (_caching_checksum_sm s).2).1 = (_caching_checksum_sm s).1 ∧
  (is_ok (_caching_checksum_sm s).1 = true → (_caching_checksum_sm s).2 = s).
Proof.
  rewrite !_caching_checksum_sm_run.
  destruct (_caching_checksum (sm_options s, training_pts s)) as [c|e] eqn:Hc; simpl.
  - rewrite Hc. split; reflexivity.
  - rewrite Hc. split; [reflexivity|discriminate].
Qed.

(** X20. When pickling raises inside [_caching_checksum_sm] the printer
    is not put back: the model is left with [printer = None], and a
    [train] of that model (with values stored and the ['global'] switch
    present) raises [AttributeError] at its first use of the printer,
    before [fit] is run. *)
Theorem _caching_checksum_sm_failure_then_train (s : SM) err e n :
  _caching_checksum (sm_options s, training_pts s) = Raise err →
  stored s "exact" 0 = Some e → shape e.1 !! 0%nat = Some n →
  is_Some (printf_options s !! "global") →
  _caching_checksum_sm s = (Raise err, set_printer None s) ∧
  train (_caching_checksum_sm s).2
  = (Raise (AttributeError "active"), set_printer None s).
Proof.
  intros Hc Hst Hn [g Hg].
  rewrite _caching_checksum_sm_run, Hc. split; [reflexivity|]. simpl.
  unfold train.
  rewrite (bind_get_entry "exact" 0 _ _ e) by exact Hst.
  unfold shape_at. rewrite Hn, bind_lift_ok.
  erewrite bind_printf_option by exact Hg.
  rewrite bind_with_printer_none by reflexivity. reflexivity.
Qed.

End CacheSteps.

(** ** Runs on the concrete instance *)

Import Toy.

Lemma store_inv_fresh : store_inv fresh.
Proof.
  intros typ key e. unfold stored, fresh, init. simpl.
  destruct (decide (typ = "exact")) as [->|Hne].
  - rewrite lookup_singleton_eq. simpl. rewrite lookup_empty. discriminate.
  - rewrite lookup_singleton_ne by congruence. discriminate.
Qed.

(** C1. With derivative data stored in slot 1, the self-check for
    derivative index 0 does not reach the store: it stops at
    [kx2 += 1] with an [UnboundLocalError]. *)
Theorem compute_rms_error_self_check_derivative :
  stored with_derivs "exact" 1 = Some (X1, column 2 Y1) ∧
  compute_rms_error None None (Some 0) with_derivs
  = (Raise (UnboundLocalError "kx2"), with_derivs).
Proof.
  split; [vm_compute; reflexivity|].
  apply compute_rms_error_derivative_unbound.
Qed.

(** C2: with inputs but no outputs the call comes back with [None];
    nothing is raised. *)
Lemma compute_rms_error_partial_supply_returns :
  compute_rms_error (Some X1) None None with_values = (Ok None, with_values) ∧
  ¬ ∃ e, (compute_rms_error (Some X1) None None with_values).1 = Raise e.
Proof.
  split; [reflexivity|]. intros [e He]. discriminate He.
Qed.

(** C4: a second insertion of values, of one point after two, returns
    and leaves [nt] at 1, not at the 2 recorded by the first. *)
Lemma second_value_insertion_overwrites_nt :
  add_training_pts "exact" X1 Y1 None fresh = (Ok tt, with_values) ∧
  nt with_values = Some 2%nat ∧
  (add_training_pts "exact" X2 Y2 None with_values).1 = Ok tt ∧
  nt (after (add_training_pts "exact" X2 Y2 None) with_values) = Some 1%nat ∧
  nt (after (add_training_pts "exact" X2 Y2 None) with_values) ≠ nt with_values.
Proof.
  repeat split; try (vm_compute; reflexivity).
  vm_compute. discriminate.
Qed.

Lemma add_training_pts_records_facts_witness :
  add_training_pts "exact" X2 Y2 None with_values
  = (Ok tt, after (add_training_pts "exact" X2 Y2 None) with_values) ∧
  dim (after (add_training_pts "exact" X2 Y2 None) with_values) = Some 2%nat ∧
  nt (after (add_training_pts "exact" X2 Y2 None) with_values) = Some 1%nat.
Proof.
  assert (Hrun : add_training_pts "exact" X2 Y2 None with_values
                 = (Ok tt, after (add_training_pts "exact" X2 Y2 None) with_values))
    by (vm_compute; reflexivity).
  split; [exact Hrun|].
  destruct (add_training_pts_records_facts (B:=toy_base) "exact" X2 Y2 None with_values _ Hrun)
    as (Hd & Hn & _ & _).
  split; [exact Hd | exact Hn].
Defined.

Lemma add_training_pts_twice_appends_witness :
  ∃ s1 s2 e,
    add_training_pts "exact" X1 Y1 None fresh = (Ok tt, s1) ∧
    add_training_pts "exact" X2 Y2 None s1 = (Ok tt, s2) ∧
    stored s2 "exact" 0 = Some e ∧
    rows_of e.1 = rows_of X1 ++ rows_of X2 ∧
    length (rows_of e.1) = 3%nat.
Proof.
  destruct (add_training_pts_twice_appends (B:=toy_base) "exact" X1 Y1 X2 Y2 None fresh 2 1 2)
    as (s1 & s2 & e & H1 & H2 & Hst & Hx & _ & Hlen & _ & _).
  - exists ∅. reflexivity.
  - vm_compute. exact I.
  - reflexivity.
  - reflexivity.
  - reflexivity.
  - reflexivity.
  - reflexivity.
  - reflexivity.
  - reflexivity.
  - reflexivity.
  - exists s1, s2, e. repeat split; assumption.
Defined.

Lemma add_training_pts_keeps_rows_matched_witness :
  store_inv (add_training_pts "exact" X2 Y_short None fresh).2 ∧
  add_training_pts "exact" X1 Y_short None fresh
  = (Raise (ValueError "total size of new array must be unchanged"), fresh) ∧
  stored (add_training_pts "exact" X2 Y2 None with_values).2 "exact" 0
  = Some (mk_ndarray [3%nat; 2%nat] [1; 2; 3; 4; 5; 6],
          mk_ndarray [3%nat; 1%nat] [10; 20; 30]).
Proof.
  split; [|split].
  - apply (add_training_pts_keeps_rows_matched (B:=toy_base) "exact" X2 Y_short None fresh 1 2);
      [exact store_inv_fresh | reflexivity].
  - apply (add_training_pts_keeps_rows_matched (B:=toy_base) "exact" X1 Y_short None fresh 2 2);
      [exact store_inv_fresh | reflexivity | vm_compute; lia].
  - assert (Hinv : store_inv with_values).
    { apply (add_training_pts_keeps_rows_matched (B:=toy_base) "exact" X1 Y1 None fresh 2 2);
        [exact store_inv_fresh | reflexivity]. }
    destruct (add_training_pts_keeps_rows_matched (B:=toy_base) "exact" X2 Y2 None
                with_values 1 2 Hinv eq_refl) as (_ & _ & _ & _ & Happend & _).
    destruct (Happend eq_refl (X1, column (B:=toy_base) 2 Y1)) as [Hsame _];
      [vm_compute; reflexivity|].
    destruct (Hsame eq_refl) as [_ Hst]. exact Hst.
Defined.

Lemma add_training_pts_unknown_fidelity_witness :
  (add_training_pts "approx" X1 Y1 None fresh).1 = Raise (KeyError (KStr "approx")) ∧
  training_pts (add_training_pts "approx" X1 Y1 None fresh).2 = {[ "exact" := ∅ ]}.
Proof.
  destruct (add_training_pts_unknown_fidelity (A:=toy_algo) None None "approx" X1 Y1 None 2 2)
    as (H1 & H2 & _).
  - discriminate.
  - reflexivity.
  - reflexivity.
  - split; [exact H1 | exact H2].
Defined.

Lemma _caching_save_then_load_witness :
  _caching_load (_caching_save empty_fs "sm.pkl" "9f2c" (PyStr "state")).2 "sm.pkl" "9f2c"
  = Ok (true, Some (PyStr "state")).
Proof.
  apply (_caching_save_then_load empty_fs "sm.pkl" "9f2c" (PyStr "state")
           (Strings.String.list_byte_of_string "9f2c" ++
            newline :: Strings.String.list_byte_of_string "state")).
  - apply not_elem_of_empty.
  - vm_compute. reflexivity.
  - vm_compute. reflexivity.
Defined.

Lemma _caching_checksum_sm_ignores_printer_witness :
  printer with_values ≠ printer (after train with_values) ∧
  (_caching_checksum_sm with_values).1
  = (_caching_checksum_sm (after train with_values)).1.
Proof.
  split.
  - vm_compute. discriminate.
  - apply (_caching_checksum_sm_ignores_printer (B:=toy_base) with_values (after train with_values)).
    + vm_compute. reflexivity.
    + vm_compute. reflexivity.
Defined.

(** ** Further runs on the concrete instance *)

Import ToyCache.

Lemma toy_evaluate_keeps_data : ∀ (x : ndarray Z) (k : Z), keeps_data (evaluate x k).
Proof. intros x k s. repeat split. Qed.

Lemma toy_fit_keeps : keeps_data fit ∧ keeps_printer fit.
Proof. split; [intros s; repeat split | intros s Hs; exact Hs]. Qed.

Lemma train_ready_fresh : train_ready fresh.
Proof.
  split; [eexists; reflexivity|]. split; [eexists; reflexivity|].
  right. split; [reflexivity|]. split; eexists; reflexivity.
Qed.

Lemma add_training_pts_other_slots_witness :
  stored (add_training_pts "exact" X1 Y1 (Some 2) with_values).2 "exact" 0
  = stored with_values "exact" 0.
Proof.
  apply (add_training_pts_other_slots (B:=toy_base) "exact" X1 Y1 (Some 2) with_values).
  vm_compute. discriminate.
Defined.

Lemma add_training_pts_only_grows_witness :
  ∃ e', stored (add_training_pts "exact" X2 Y2 None with_values).2 "exact" 0 = Some e' ∧
        data X1 `prefix_of` data e'.1 ∧ [10; 20] `prefix_of` data e'.2.
Proof.
  apply (add_training_pts_only_grows (B:=toy_base) "exact" X2 Y2 None with_values
           "exact" 0 (X1, column (B:=toy_base) 2 Y1)).
  vm_compute. reflexivity.
Defined.

Lemma add_training_pts_column_mismatch_witness :
  (add_training_pts "exact" (mk_ndarray [1%nat; 3%nat] [7; 8; 9]) Y2 None with_values).1
  = Raise (ValueError "all the input array dimensions except for the concatenation axis must match exactly") ∧
  dim (add_training_pts "exact" (mk_ndarray [1%nat; 3%nat] [7; 8; 9]) Y2 None with_values).2
  = Some 3%nat.
Proof.
  destruct (add_training_pts_column_mismatch (B:=toy_base) "exact"
              (mk_ndarray [1%nat; 3%nat] [7; 8; 9]) Y2 None with_values
              (X1, column (B:=toy_base) 2 Y1) 2 2 1 3) as (H1 & _ & H3 & _).
  - vm_compute. reflexivity.
  - reflexivity.
  - reflexivity.
  - lia.
  - reflexivity.
  - split; [exact H1 | exact H3].
Defined.

Lemma add_training_pts_values_need_2d_witness :
  ∃ e, add_training_pts "exact" (mk_ndarray [2%nat] [1; 2]) Y1 None fresh = (Raise e, fresh).
Proof.
  apply (add_training_pts_values_need_2d (B:=toy_base)). simpl. lia.
Defined.

Lemma add_training_pts_1d_inputs_witness :
  ∃ s1 s2 e,
    add_training_pts "exact" (mk_ndarray [2%nat] [1; 2]) Y1 (Some 0) fresh = (Ok tt, s1) ∧
    add_training_pts "exact" (mk_ndarray [2%nat] [1; 2]) Y1 (Some 0) s1 = (Ok tt, s2) ∧
    stored s2 "exact" 1 = Some e ∧
    shape e.1 = [2%nat; 2%nat] ∧ shape e.2 = [4%nat; 1%nat].
Proof.
  destruct (add_training_pts_1d_inputs (B:=toy_base) "exact"
              (mk_ndarray [2%nat] [1; 2]) Y1 0 fresh 2)
    as (s1 & s2 & e & H1 & H2 & H3 & H4 & H5 & _).
  - exists ∅. reflexivity.
  - vm_compute. reflexivity.
  - reflexivity.
  - reflexivity.
  - exists s1, s2, e. repeat split; assumption.
Defined.

Lemma add_training_pts_minus_one_is_values_witness :
  ∃ s1 s2 e,
    add_training_pts "exact" X1 Y1 None fresh = (Ok tt, s1) ∧
    add_training_pts "exact" X2 Y2 (Some (-1)) s1 = (Ok tt, s2) ∧
    stored s2 "exact" 0 = Some e ∧
    rows_of e.1 = [[1; 2]; [3; 4]; [5; 6]] ∧ nt s2 = Some 2%nat.
Proof.
  destruct (add_training_pts_minus_one_is_values (B:=toy_base) "exact" X1 Y1 X2 Y2
              fresh 2 1 2)
    as (s1 & s2 & e & H1 & H2 & H3 & H4 & _ & H6).
  - exists ∅. reflexivity.
  - vm_compute. exact I.
  - reflexivity.
  - reflexivity.
  - reflexivity.
  - reflexivity.
  - reflexivity.
  - reflexivity.
  - reflexivity.
  - reflexivity.
  - exists s1, s2, e. repeat split; assumption.
Defined.

Lemma evaluation_keeps_data_witness :
  same_data with_values (predict X2 None with_values).2 ∧
  same_data with_values (compute_rms_error None None None with_values).2.
Proof.
  destruct (evaluation_keeps_data (A:=toy_algo) X2 None None None
              toy_evaluate_keeps_data) as [Hp Hc].
  split; [apply Hp | apply Hc].
Defined.

Lemma train_keeps_data_witness : same_data with_values (train with_values).2.
Proof.
  apply (train_keeps_data (A:=toy_algo)). apply toy_fit_keeps.
Defined.

Lemma train_runs_fit_witness :
  ∃ p1 p2,
    (train with_values).1 = (fit (set_printer (Some p1) with_values)).1 ∧
    (train with_values).2
    = set_printer (Some p2) (fit (set_printer (Some p1) with_values)).2.
Proof.
  apply (train_runs_fit (A:=toy_algo) with_values (X1, column (B:=toy_base) 2 Y1) 2).
  - vm_compute. reflexivity.
  - reflexivity.
  - exact train_ready_fresh.
  - apply toy_fit_keeps.
Defined.

Lemma train_without_values_witness :
  train fresh = (Raise (KeyError (KInt 0)), fresh).
Proof.
  apply (train_without_values (A:=toy_algo) fresh). vm_compute. reflexivity.
Defined.

Lemma compute_rms_error_without_values_witness :
  compute_rms_error None None None fresh
  = (Raise (ValueError "There is no training point data available for kx 0"), fresh).
Proof.
  apply (compute_rms_error_without_values (A:=toy_algo) fresh).
  vm_compute. reflexivity.
Defined.

Lemma add_then_self_check_witness :
  ∃ s1,
    add_training_pts "exact" X1 Y1 None fresh = (Ok tt, s1) ∧
    stored s1 "exact" 0 = Some (X1, column 2 Y1) ∧
    (compute_rms_error None None None s1).1 = Ok (Some 1).
Proof.
  destruct (add_then_self_check (A:=toy_algo) X1 Y1 fresh 2 2)
    as (s1 & H1 & H2 & H3).
  - exists ∅. reflexivity.
  - vm_compute. reflexivity.
  - reflexivity.
  - reflexivity.
  - exists s1. split; [exact H1|]. split; [exact H2|].
    rewrite H3. inversion H1. vm_compute. reflexivity.
Defined.

Lemma predict_returns_column_witness :
  ∃ n p1 y0 s2,
    shape X1 !! 0%nat = Some n ∧
    evaluate X1 1 (set_printer (Some p1) with_derivs) = (Ok y0, s2) ∧
    asize y0 = n ∧
    (predict X1 (Some 0) with_derivs).1 = Ok (mk_ndarray [n; 1%nat] (data y0)).
Proof.
  destruct (predict_returns_column (A:=toy_algo) X1 (Some 0) with_derivs
              (mk_ndarray [2%nat; 1%nat] [0; 0])
              (predict (A:=toy_algo) X1 (Some 0) with_derivs).2)
    as (n & p1 & y0 & s2 & p2 & H1 & H2 & H3 & H4 & _).
  - vm_compute. reflexivity.
  - exists n, p1, y0, s2. split; [exact H1|]. split; [exact H2|].
    split; [exact H3|]. rewrite <- H4. vm_compute. reflexivity.
Defined.

Lemma construct_insert_train_witness :
  ∃ s1 p1 p2,
    add_training_pts "exact" X1 Y1 None fresh = (Ok tt, s1) ∧
    dim s1 = Some 2%nat ∧ nt s1 = Some 2%nat ∧
    (train s1).1 = (fit (set_printer (Some p1) s1)).1 ∧
    (train s1).2 = set_printer (Some p2) (fit (set_printer (Some p1) s1)).2.
Proof.
  apply (construct_insert_train (A:=toy_algo) None None X1 Y1 2 2).
  - exact train_ready_fresh.
  - reflexivity.
  - reflexivity.
  - apply toy_fit_keeps.
Defined.

Lemma _caching_save_other_files_witness :
  files (_caching_save (write_file empty_fs "a.pkl" [x01]) "sm.pkl" "9f2c"
           (PyStr "state")).2 !! "a.pkl" = Some [x01].
Proof.
  destruct (_caching_save_other_files (write_file empty_fs "a.pkl" [x01])
              "sm.pkl" "9f2c" (PyStr "state") "a.pkl") as [H _].
  - discriminate.
  - rewrite H. reflexivity.
Defined.

Lemma _caching_load_stale_witness :
  _caching_load (_caching_save empty_fs "sm.pkl" "9f2c" (PyStr "state")).2 "sm.pkl" "0000"
  = Ok (false, None).
Proof.
  apply (_caching_load_stale empty_fs "sm.pkl" "9f2c" (PyStr "state")
           (Strings.String.list_byte_of_string "9f2c" ++
            newline :: Strings.String.list_byte_of_string "state")).
  - apply not_elem_of_empty.
  - vm_compute. reflexivity.
  - vm_compute. reflexivity.
  - discriminate.
Defined.

Lemma _caching_save_twice_witness :
  _caching_load
    (_caching_save (_caching_save empty_fs "sm.pkl" "9f2c" (PyStr "old")).2
       "sm.pkl" "77aa" (PyStr "new")).2 "sm.pkl" "77aa"
  = Ok (true, Some (PyStr "new")).
Proof.
  apply (_caching_save_twice empty_fs "sm.pkl" "9f2c" (PyStr "old") "77aa" (PyStr "new")
           (Strings.String.list_byte_of_string "9f2c" ++
            newline :: Strings.String.list_byte_of_string "old")
           (Strings.String.list_byte_of_string "77aa" ++
            newline :: Strings.String.list_byte_of_string "new")).
  - apply not_elem_of_empty.
  - vm_compute. reflexivity.
  - vm_compute. reflexivity.
  - vm_compute. reflexivity.
Defined.

Lemma _caching_checksum_sm_repeatable_witness :
  (_caching_checksum_sm with_values).2 = with_values.
Proof.
  apply (_caching_checksum_sm_repeatable (B:=toy_base) with_values).
  vm_compute. reflexivity.
Defined.

Lemma _caching_checksum_sm_failure_then_train_witness :
  train (_caching_checksum_sm (PM:=strict_model_pickler) with_limits).2
  = (Raise (AttributeError "active"), set_printer None with_limits).
Proof.
  apply (_caching_checksum_sm_failure_then_train (PM:=strict_model_pickler)
           with_limits (PickleError "cannot pickle xlimits") (X1, column (B:=toy_base) 2 Y1) 2).
  - vm_compute. reflexivity.
  - vm_compute. reflexivity.
  - reflexivity.
  - eexists. vm_compute. reflexivity.
Defined.
